(** * lastplayed: the two request handlers of the Flask application

    [api/app/healthcheck/healthcheck.py] and [api/app/songs/latest_songs.py]
    are embedded as functions over
    - the Python objects that [requests]' [Response.json()] hands to the
      handler (None, bool, int, float, str, list, dict),
    - an exception monad for the body of the [try] block, and
    - a small tree of effects (outbound GET, log line) for what the handlers
      do to the outside world.

    Strings are byte strings. A Python [dict] keeps its items in insertion
    order ([str()] of a dict shows it), so it is an association list, read at
    the first item with the key; the process environment is a finite map. *)

From Stdlib Require Import ZArith String Ascii SpecFloat.
From stdpp Require Import gmap strings list fin_maps pretty.

#[local] Set Warnings "-register-all".
#[local] Open Scope string_scope.
#[local] Open Scope Z_scope.

(** ** Python values and the builtins the handlers use *)

Module Py.

(** What [json.loads] can produce. A float is kept as sign, mantissa and
    binary exponent (or zero, infinity, NaN): truthiness and [int()] only need
    that much. *)
Inductive json : Type :=
  | JNull
  | JBool (b : bool)
  | JInt (z : Z)
  | JFloat (f : spec_float)
  | JStr (s : string)
  | JList (l : list json)
  | JDict (d : list (string * json)).

(** Exception classes that can reach the handler's [except Exception]. The
    first three stand for what [requests.get] raises. *)
Inductive exn : Type :=
  | ConnectionError
  | Timeout
  | RequestException
  | JSONDecodeError
  | AttributeError
  | TypeError
  | KeyError
  | IndexError
  | ValueError
  | OverflowError.

(** A computation that returns or raises. *)
Inductive result (A : Type) : Type :=
  | Ok (a : A)
  | Raise (e : exn).

Arguments Ok {A} a.
Arguments Raise {A} e.

#[export] Instance result_ret : MRet result := @Ok.

#[export] Instance result_bind : MBind result :=
  λ A B (f : A → result B) (r : result A),
    match r with
    | Ok a => f a
    | Raise e => Raise e
    end.

(** *** Dicts *)

(** The value of the first item with key [k]. *)
Fixpoint assoc_get {V} (d : list (string * V)) (k : string) : option V :=
  match d with
  | [] => None
  | (k', v) :: d' => if String.eqb k' k then Some v else assoc_get d' k
  end.

(** [d[k] = v]: the item with key [k] gets the value [v] where it stands; a
    new key goes to the end. *)
Fixpoint assoc_set {V} (d : list (string * V)) (k : string) (v : V)
    : list (string * V) :=
  match d with
  | [] => [(k, v)]
  | (k', v') :: d' =>
      if String.eqb k' k then (k', v) :: d' else (k', v') :: assoc_set d' k v
  end.

(** [bool(v)] *)
Definition py_truthy (v : json) : bool :=
  match v with
  | JNull => false
  | JBool b => b
  | JInt z => negb (z =? 0)
  | JFloat (S754_zero _) => false
  | JFloat _ => true
  | JStr s => negb (String.eqb s "")
  | JList l => negb (Nat.eqb (length l) 0)
  | JDict d => negb (Nat.eqb (length d) 0)
  end.

(** [o.get(k, dflt)]: only a dict has the method. *)
Definition py_get (o : json) (k : string) (dflt : json) : result json :=
  match o with
  | JDict d => Ok (default dflt (assoc_get d k))
  | _ => Raise AttributeError
  end.

(** [needle in hay] on two strings *)
Fixpoint is_substring (needle hay : string) : bool :=
  String.prefix needle hay ||
  match hay with
  | EmptyString => false
  | String _ hay' => is_substring needle hay'
  end.

(** [k == v] for a string [k] *)
Definition str_equals (k : string) (v : json) : bool :=
  match v with
  | JStr s => String.eqb k s
  | _ => false
  end.

(** [k in o] for a string [k]: key of a dict, element of a list, substring
    of a string; the other values are not iterable. *)
Definition py_contains (k : string) (o : json) : result bool :=
  match o with
  | JDict d => Ok (match assoc_get d k with Some _ => true | None => false end)
  | JList l => Ok (existsb (str_equals k) l)
  | JStr s => Ok (is_substring k s)
  | _ => Raise TypeError
  end.

(** [o[k]] for a string [k] *)
Definition py_getitem (o : json) (k : string) : result json :=
  match o with
  | JDict d =>
      match assoc_get d k with
      | Some v => Ok v
      | None => Raise KeyError
      end
  | _ => Raise TypeError
  end.

(** Position designated by a Python index in a sequence of length [len] *)
Definition py_position (len : nat) (i : Z) : option nat :=
  let n := Z.of_nat len in
  if (0 <=? i) && (i <? n) then Some (Z.to_nat i)
  else if (- n <=? i) && (i <? 0) then Some (Z.to_nat (n + i))
  else None.

(** [o[i]] for an integer [i]. A dict from JSON has no integer key. *)
Definition py_index (o : json) (i : Z) : result json :=
  match o with
  | JList l =>
      match py_position (length l) i ≫= (l !!.) with
      | Some v => Ok v
      | None => Raise IndexError
      end
  | JStr s =>
      let cs := list_ascii_of_string s in
      match py_position (length cs) i ≫= (cs !!.) with
      | Some c => Ok (JStr (String c EmptyString))
      | None => Raise IndexError
      end
  | JDict _ => Raise KeyError
  | _ => Raise TypeError
  end.

(** [o[k] = v] *)
Definition py_setitem (o : json) (k : string) (v : json) : result json :=
  match o with
  | JDict d => Ok (JDict (assoc_set d k v))
  | _ => Raise TypeError
  end.

(** The value stored under [k], for reading results back. *)
Definition lookup_field (o : json) (k : string) : option json :=
  match o with
  | JDict d => assoc_get d k
  | _ => None
  end.

(** None, booleans and numbers: neither subscriptable nor iterable. *)
Definition is_scalar (v : json) : bool :=
  match v with
  | JNull | JBool _ | JInt _ | JFloat _ => true
  | JStr _ | JList _ | JDict _ => false
  end.

(** *** What the interpreter decides *)

(** The limit on the digits of a decimal string
    ([sys.get_int_max_str_digits()]: 0 for none, 4300 unless configured),
    [int()] of a string with characters outside ASCII, and [repr()] of a
    float, a list or a dict are left to the interpreter. *)
Record interpreter : Type := Interpreter {
  int_max_str_digits : nat;
  int_of_unicode : string → result Z;
  py_repr : json → result string;
}.

(** *** [int()] *)

(** Blanks that [int()] skips at both ends of a string *)
Definition is_space (c : ascii) : bool :=
  let n := Z.of_nat (nat_of_ascii c) in
  ((9 <=? n) && (n <=? 13)) || (n =? 32).

Definition digit_value (c : ascii) : option Z :=
  let n := Z.of_nat (nat_of_ascii c) in
  if (48 <=? n) && (n <=? 57) then Some (n - 48) else None.

Definition is_underscore (c : ascii) : bool := Ascii.eqb c "_"%char.

Definition is_ascii_text (s : string) : bool :=
  forallb (λ c, (nat_of_ascii c <? 128)%nat) (list_ascii_of_string s).

Fixpoint lstrip (s : string) : string :=
  match s with
  | EmptyString => EmptyString
  | String c s' => if is_space c then lstrip s' else s
  end.

(** Longest run of digits and underscores at the head of [s], and the rest *)
Fixpoint scan_digits (s : string) : list ascii * string :=
  match s with
  | EmptyString => ([], EmptyString)
  | String c s' =>
      if is_underscore c || bool_decide (is_Some (digit_value c))
      then let '(run, rest) := scan_digits s' in (c :: run, rest)
      else ([], s)
  end.

(** Underscores only one at a time and between two digits; at least one
    digit. [prev] tells whether the previous character was not a digit. *)
Fixpoint well_grouped (prev : bool) (run : list ascii) : bool :=
  match run with
  | [] => negb prev
  | c :: run' =>
      if is_underscore c then negb prev && well_grouped true run'
      else well_grouped false run'
  end.

Definition digits_value (ds : list ascii) : Z :=
  fold_left (λ acc c, 10 * acc + default 0 (digit_value c)) ds 0.

Definition strip_sign (s : string) : bool * string :=
  match s with
  | String "-"%char s' => (true, s')
  | String "+"%char s' => (false, s')
  | _ => (false, s)
  end.

(** [int(f)]: truncation towards zero *)
Definition int_of_float (f : spec_float) : result Z :=
  match f with
  | S754_zero _ => Ok 0
  | S754_infinity _ => Raise OverflowError
  | S754_nan => Raise ValueError
  | S754_finite s m e =>
      let a := Z.shiftl (Z.pos m) e in
      Ok (if s then - a else a)
  end.

(** Below this many digits CPython converts without asking for the limit. *)
Definition INT_MAX_STR_DIGITS_THRESHOLD : nat := 640.

Section Builtins.

Variable py : interpreter.

(** Whether a number of [n] decimal digits may be converted from or to a
    string: the limit is not looked at up to the threshold, and 0 lifts
    it. *)
Definition within_digit_limit (n : nat) : bool :=
  (n <=? INT_MAX_STR_DIGITS_THRESHOLD)%nat
  || Nat.eqb (int_max_str_digits py) 0
  || (n <=? int_max_str_digits py)%nat.

(** [int(s)] in base ten, for ASCII text *)
Definition int_of_ascii (s : string) : result Z :=
  let '(neg, s1) := strip_sign (lstrip s) in
  let '(run, rest) := scan_digits s1 in
  let ds := filter (λ c, is_underscore c = false) run in
  if well_grouped true run
     && String.eqb (lstrip rest) ""
     && within_digit_limit (length ds)
  then Ok (if neg then - digits_value ds else digits_value ds)
  else Raise ValueError.

Definition int_of_str (s : string) : result Z :=
  if is_ascii_text s then int_of_ascii s else int_of_unicode py s.

Definition py_int (v : json) : result Z :=
  match v with
  | JInt z => Ok z
  | JBool b => Ok (if b then 1 else 0)
  | JFloat f => int_of_float f
  | JStr s => int_of_str s
  | JNull | JList _ | JDict _ => Raise TypeError
  end.

(** *** [str()], as an f-string applies it *)

Definition py_str (v : json) : result string :=
  match v with
  | JStr s => Ok s
  | JInt z =>
      if within_digit_limit (String.length (pretty (Z.abs z)))
      then Ok (pretty z)
      else Raise ValueError
  | JBool true => Ok "True"
  | JBool false => Ok "False"
  | JNull => Ok "None"
  | JFloat _ | JList _ | JDict _ => py_repr py v
  end.

End Builtins.

(** [str()] of an [Optional[str]] *)
Definition str_of_optional (o : option string) : string :=
  match o with
  | Some s => s
  | None => "None"
  end.

(** [bool()] of an [Optional[str]] *)
Definition optional_truthy (o : option string) : bool :=
  match o with
  | Some s => negb (String.eqb s "")
  | None => false
  end.

End Py.

Export Py.

(** ** The outside world: HTTP client, web framework, effects *)

Module Web.

(** A [requests.Response], as far as the handler looks at it: the status
    code and what [.json()] returns or raises. *)
Record http_response : Type := HttpResponse {
  status_code : Z;
  json_result : result json;
}.

(** What a Flask view hands back: a JSON body and a status. *)
Record response : Type := Response {
  body : json;
  status : Z;
}.

(** [jsonify(d)] builds a response with status 200 ... *)
Definition jsonify (d : list (string * json)) : response :=
  {| body := JDict d; status := 200 |}.

(** ... and a view returning [(response, code)] overrides the status. *)
Definition with_status (r : response) (code : Z) : response :=
  {| body := body r; status := code |}.

(** [request.args.get(k)]: the first value given for [k] in the query
    string, if any. *)
Definition args_get (args : list (string * string)) (k : string)
    : option string :=
  assoc_get args k.

(** Programs that may issue a GET with a timeout or write a log line. *)
Inductive io (A : Type) : Type :=
  | Done (a : A)
  | HttpGet (url : string) (timeout : Z) (k : result http_response → io A)
  | LogInfo (msg : string) (k : io A).

Arguments Done {A} a.
Arguments HttpGet {A} url timeout k.
Arguments LogInfo {A} msg k.

Fixpoint io_bind {A B} (f : A → io B) (p : io A) : io B :=
  match p with
  | Done a => f a
  | HttpGet url timeout k => HttpGet url timeout (λ r, io_bind f (k r))
  | LogInfo msg k => LogInfo msg (io_bind f k)
  end.

#[export] Instance io_ret : MRet io := @Done.
#[export] Instance io_mbind : MBind io := @io_bind.

(** The value of a [try] block whose body gave [r], under a handler for
    [Exception]. *)
Definition recover {A} (handler : exn → A) (r : result A) : A :=
  match r with
  | Ok a => a
  | Raise e => handler e
  end.

(** [try: p except Exception: handler] *)
Definition try_except {A} (p : io (result A)) (handler : exn → A) : io A :=
  r ← p;
  mret (recover handler r).

(** What an execution did to the outside world. *)
Inductive event : Type :=
  | Requested (url : string) (timeout : Z)
  | Logged (msg : string).

(** The network answers a GET with a response or an exception. *)
Definition network : Type := string → Z → result http_response.

(** Run a program against a network: its result and its events in order. *)
Fixpoint run {A} (net : network) (p : io A) : A * list event :=
  match p with
  | Done a => (a, [])
  | HttpGet url timeout k =>
      let '(a, evs) := run net (k (net url timeout)) in
      (a, Requested url timeout :: evs)
  | LogInfo msg k =>
      let '(a, evs) := run net k in
      (a, Logged msg :: evs)
  end.

End Web.

Export Web.

(** ** [app/healthcheck/healthcheck.py] *)

Module healthcheck.

Definition route : io response :=
  LogInfo "Healthcheck was requested"
    (Done (jsonify [("message", JStr "type shit")])).

End healthcheck.

(** ** [app/songs/latest_songs.py] *)

Module latest_songs.

Definition BASE_URL : string := "https://ws.audioscrobbler.com/2.0/".
Definition RECENT_TRACKS_PARAMS : string :=
  "method=user.getrecenttracks&limit=1&format=json".
Definition TIMEOUT : Z := 10.

Definition request_url (user : string) (api_key : option string) : string :=
  BASE_URL ++ "?" ++ RECENT_TRACKS_PARAMS
    ++ "&user=" ++ user ++ "&api_key=" ++ str_of_optional api_key.

Definition INTERNAL_ERROR : response :=
  with_status (jsonify [("message", JStr "INTERNAL_ERROR")]) 500.

Definition NO_TRACKS_FOUND : response :=
  with_status (jsonify [("message", JStr "NO_TRACKS_FOUND")]) 200.

(** Lines 19-23: the track to report, [None] when there is none. *)
Definition select_track (lastfm_response : json) : result (option json) :=
  recent_tracks ← py_get lastfm_response "recenttracks" (JDict []);
  present ← py_contains "track" recent_tracks;
  no_tracks ←
    (if negb present then mret true
     else tracks ← py_getitem recent_tracks "track";
          mret (negb (py_truthy tracks)));
  if no_tracks : bool then mret None
  else
    tracks ← py_getitem recent_tracks "track";
    track ← py_index tracks 0;
    mret (Some track).

Section Handler.

Variable py : interpreter.

(** Lines 26-27: [track['date_uts']] is set on the track itself. *)
Definition add_date_uts (track : json) : result json :=
  date ← py_get track "date" (JDict []);
  track_date ← py_get date "uts" JNull;
  date_uts ←
    (if py_truthy track_date then n ← py_int py track_date; mret (JInt n)
     else mret JNull);
  py_setitem track "date_uts" date_uts.

Definition badge (message : string) : list (string * json) :=
  [ ("schemaVersion", JInt 1);
    ("label", JStr "Last.FM Last Played Song");
    ("message", JStr message) ].

(** Lines 29-36 *)
Definition render (args : list (string * string)) (status_code : Z)
    (track : json) : result response :=
  if bool_decide (args_get args "format" = Some "shields.io") then
    name ← py_getitem track "name" ≫= py_str py;
    artist ← py_getitem track "artist";
    text ← py_getitem artist "#text" ≫= py_str py;
    mret (with_status (jsonify (badge (name ++ " - " ++ text))) 200)
  else
    mret (with_status (jsonify [("track", track)]) status_code).

(** Lines 18-36: what follows the GET inside the [try] block. *)
Definition interpret (args : list (string * string)) (req : http_response)
    : result response :=
  lastfm_response ← json_result req;
  selected ← select_track lastfm_response;
  match selected with
  | None => mret NO_TRACKS_FOUND
  | Some track =>
      track ← add_date_uts track;
      render args (status_code req) track
  end.

(** Lines 14-36: the [try] block. *)
Definition attempt (args : list (string * string)) (user : string)
    (api_key : option string) : io (result response) :=
  HttpGet (request_url user api_key) TIMEOUT
    (λ outcome, Done (outcome ≫= interpret args)).

Definition route (environ : gmap string string)
    (args : list (string * string)) (user : string) : io response :=
  let api_key := environ !! "LASTFM_API_KEY" in
  if negb (optional_truthy api_key) then Done INTERNAL_ERROR
  else try_except (attempt args user api_key) (λ _, INTERNAL_ERROR).

(** The phases of the [try] block in which an exception can arise, given
    the outcome of the GET. *)
Inductive raises_in (args : list (string * string))
    : result http_response → exn → Prop :=
  | raises_in_call e :
      raises_in args (Raise e) e
  | raises_in_parsing req e :
      json_result req = Raise e →
      raises_in args (Ok req) e
  | raises_in_selection req j e :
      json_result req = Ok j →
      select_track j = Raise e →
      raises_in args (Ok req) e
  | raises_in_normalization req j track e :
      json_result req = Ok j →
      select_track j = Ok (Some track) →
      add_date_uts track = Raise e →
      raises_in args (Ok req) e
  | raises_in_rendering req j track track' e :
      json_result req = Ok j →
      select_track j = Ok (Some track) →
      add_date_uts track = Ok track' →
      render args (status_code req) track' = Raise e →
      raises_in args (Ok req) e.

(** The value of [date_uts] for a track with fields [t]: the integer that
    [date.uts] converts to when it is there and truthy, None when the track
    has no [date]. *)
Inductive date_uts_spec (t : list (string * json)) : json → Prop :=
  | date_uts_converted d v n :
      assoc_get t "date" = Some (JDict d) →
      assoc_get d "uts" = Some v →
      py_truthy v = true →
      py_int py v = Ok n →
      date_uts_spec t (JInt n)
  | date_uts_no_date :
      assoc_get t "date" = None →
      date_uts_spec t JNull.

End Handler.

(** A parsed upstream object without a usable track list: no
    ["recenttracks"] member, or one that is an object whose ["track"] member
    is missing or is the empty list. *)
Inductive no_tracks (top : list (string * json)) : Prop :=
  | no_recenttracks :
      assoc_get top "recenttracks" = None →
      no_tracks top
  | no_track_member rt :
      assoc_get top "recenttracks" = Some (JDict rt) →
      assoc_get rt "track" = None →
      no_tracks top
  | empty_track_list rt :
      assoc_get top "recenttracks" = Some (JDict rt) →
      assoc_get rt "track" = Some (JList []) →
      no_tracks top.

(** Outcomes of the GET that the handler cannot read: the call raised, the
    body is not JSON, the JSON value is not an object, its ["recenttracks"]
    member is None, a boolean or a number, or the first element of the track
    list is not an object. *)
Inductive upstream_failure : result http_response → Prop :=
  | call_failed e :
      upstream_failure (Raise e)
  | body_malformed code e :
      upstream_failure (Ok (HttpResponse code (Raise e)))
  | not_an_object code j :
      (∀ top, j ≠ JDict top) →
      upstream_failure (Ok (HttpResponse code (Ok j)))
  | recenttracks_scalar code top v :
      assoc_get top "recenttracks" = Some v →
      is_scalar v = true →
      upstream_failure (Ok (HttpResponse code (Ok (JDict top))))
  | first_track_not_an_object code top rt track rest :
      assoc_get top "recenttracks" = Some (JDict rt) →
      assoc_get rt "track" = Some (JList (track :: rest)) →
      (∀ fields, track ≠ JDict fields) →
      upstream_failure (Ok (HttpResponse code (Ok (JDict top)))).

End latest_songs.

Import latest_songs.

(** ** Sample inputs *)

Definition sample_environ : gmap string string :=
  {[ "LASTFM_API_KEY" := "0123456789abcdef" ]}.

Definition sample_url (user : string) : string :=
  request_url user (Some "0123456789abcdef").

(** CPython with its default digit limit; the two functions stand for what
    the samples never ask. *)
Definition sample_python : interpreter :=
  {| int_max_str_digits := 4300;
     int_of_unicode := λ _, Raise ValueError;
     py_repr := λ _, Ok "?" |}.

(** A network that answers every GET with status [code] and JSON [j]. *)
Definition answering (code : Z) (j : json) : network :=
  λ _ _, Ok (HttpResponse code (Ok j)).

(** A network on which every GET raises [e]. *)
Definition failing (e : exn) : network := λ _ _, Raise e.

Definition recent (tracks : json) : json :=
  JDict [("recenttracks", JDict [("track", tracks)])].

Definition song_fields : list (string * json) :=
  [ ("name", JStr "Song"); ("artist", JDict [("#text", JStr "Band")]) ].

Definition dated_song_fields : list (string * json) :=
  song_fields
  ++ [ ("date", JDict [ ("uts", JStr "1700000000");
                        ("#text", JStr "14 Nov 2023, 22:13") ]) ].

(** A track whose [date] carries an empty timestamp. *)
Definition undated_song_fields : list (string * json) :=
  song_fields ++ [ ("date", JDict [("uts", JStr "")]) ].

(** A track whose timestamp is the number zero. *)
Definition epoch_fields : list (string * json) :=
  [ ("date", JDict [("uts", JInt 0)]) ].

(** What Last.fm sends for an unknown user. *)
Definition error_payload : json :=
  JDict [("message", JStr "User not found"); ("error", JInt 6)].

(** ** Further conditions on what the upstream sends *)

(** Values of [recent_tracks] for which the test of line 20 holds: a dict
    without ["track"] or with a falsy one, a list without the string
    ["track"], a string without that substring. *)
Inductive track_list_missing : json → Prop :=
  | track_not_a_key rt :
      assoc_get rt "track" = None →
      track_list_missing (JDict rt)
  | track_falsy rt tracks :
      assoc_get rt "track" = Some tracks →
      py_truthy tracks = false →
      track_list_missing (JDict rt)
  | track_not_an_element l :
      existsb (str_equals "track") l = false →
      track_list_missing (JList l)
  | track_not_a_substring s :
      is_substring "track" s = false →
      track_list_missing (JStr s).

(** Dates on which lines 26-27 raise: a ["date"] member that is not an
    object, or a truthy [uts] that [int()] refuses. *)
Inductive bad_date (py : interpreter) (t : list (string * json)) : Prop :=
  | date_not_an_object date :
      assoc_get t "date" = Some date →
      (∀ d, date ≠ JDict d) →
      bad_date py t
  | uts_not_convertible d uts e :
      assoc_get t "date" = Some (JDict d) →
      assoc_get d "uts" = Some uts →
      py_truthy uts = true →
      py_int py uts = Raise e →
      bad_date py t.

(** Dates that lines 26-27 can read, with the value they give to
    [date_uts]: None when the track has no ["date"], when the date is an
    object without [uts], and when [uts] is falsy; the integer that a truthy
    [uts] converts to. *)
Inductive date_in_order (py : interpreter) (t : list (string * json))
    : json → Prop :=
  | date_absent :
      assoc_get t "date" = None →
      date_in_order py t JNull
  | uts_absent d :
      assoc_get t "date" = Some (JDict d) →
      assoc_get d "uts" = None →
      date_in_order py t JNull
  | uts_falsy d uts :
      assoc_get t "date" = Some (JDict d) →
      assoc_get d "uts" = Some uts →
      py_truthy uts = false →
      date_in_order py t JNull
  | uts_converted d uts n :
      assoc_get t "date" = Some (JDict d) →
      assoc_get d "uts" = Some uts →
      py_truthy uts = true →
      py_int py uts = Ok n →
      date_in_order py t (JInt n).

(** Tracks that line 33 cannot show: no name, no artist, an artist that is
    not an object, or one without ["#text"]. *)
Inductive badge_unavailable (t : list (string * json)) : Prop :=
  | name_missing :
      assoc_get t "name" = None →
      badge_unavailable t
  | artist_missing :
      assoc_get t "artist" = None →
      badge_unavailable t
  | artist_not_an_object artist :
      assoc_get t "artist" = Some artist →
      (∀ fields, artist ≠ JDict fields) →
      badge_unavailable t
  | artist_text_missing fields :
      assoc_get t "artist" = Some (JDict fields) →
      assoc_get fields "#text" = None →
      badge_unavailable t.

(** A track as Last.fm reports one that is playing now: no [date]. *)
Definition playing_fields : list (string * json) :=
  [ ("artist", JDict [("mbid", JStr ""); ("#text", JStr "Band")]);
    ("@attr", JDict [("nowplaying", JStr "true")]);
    ("name", JStr "Song") ].

(** A track in the shape of [extended=1]: the artist has a name, no
    ["#text"]. *)
Definition extended_fields : list (string * json) :=
  [ ("name", JStr "Song"); ("artist", JDict [("name", JStr "Band")]) ].

(** ** Facts about the builtins *)

(** Evaluate a handler step by step, reading the fields that the
    hypotheses fix. *)
Ltac py_eval :=
  repeat (simpl;
          match goal with
          | H : ?lhs = _ |- context [?lhs] => rewrite H
          end);
  simpl.

Lemma assoc_get_set_eq {V} (d : list (string * V)) (k : string) (v : V) :
  assoc_get (assoc_set d k v) k = Some v.
Proof.
  induction d as [| [k' v'] d IH]; simpl.
  - by rewrite String.eqb_refl.
  - destruct (String.eqb k' k) eqn:Hk; simpl; by rewrite Hk.
Qed.

Lemma assoc_get_set_ne {V} (d : list (string * V)) (k k' : string) (v : V) :
  k ≠ k' →
  assoc_get (assoc_set d k v) k' = assoc_get d k'.
Proof.
  intros Hne. induction d as [| [k0 v0] d IH]; simpl.
  - by rewrite (proj2 (String.eqb_neq k k')).
  - destruct (String.eqb k0 k) eqn:Hk; simpl; [| by rewrite IH].
    apply String.eqb_eq in Hk as ->.
    by rewrite (proj2 (String.eqb_neq k k')).
Qed.

(** Setting a key leaves the items of the other keys as they are and where
    they are. *)
Lemma assoc_set_others {V} (d : list (string * V)) (k : string) (v : V) :
  filter (λ item, item.1 ≠ k) (assoc_set d k v)
  = filter (λ item, item.1 ≠ k) d.
Proof.
  induction d as [| [k' v'] d IH]; simpl.
  - by rewrite filter_cons_False by (simpl; auto).
  - destruct (String.eqb k' k) eqn:Hk.
    + apply String.eqb_eq in Hk as ->.
      by rewrite !filter_cons_False by (simpl; auto).
    + apply String.eqb_neq in Hk.
      rewrite !filter_cons_True by done. by rewrite IH.
Qed.

Lemma optional_truthy_false (o : option string) :
  optional_truthy o = false ↔ o = None ∨ o = Some "".
Proof.
  destruct o as [s|]; simpl.
  - rewrite negb_false_iff, String.eqb_eq. split.
    + intros ->. by right.
    + intros [?|[= ->]]; done.
  - split; [by left | done].
Qed.

Lemma optional_truthy_true (o : option string) (s : string) :
  o = Some s → s ≠ "" → optional_truthy o = true.
Proof.
  intros -> Hs. simpl. apply negb_true_iff, String.eqb_neq, Hs.
Qed.

Example int_of_decimal :
  int_of_str sample_python "1700000000" = Ok 1700000000.
Proof. reflexivity. Qed.

Example int_of_padded : int_of_str sample_python "  -1_000 " = Ok (-1000).
Proof. reflexivity. Qed.

Example int_of_empty : int_of_str sample_python "" = Raise ValueError.
Proof. reflexivity. Qed.

Example int_of_letters : int_of_str sample_python "12a" = Raise ValueError.
Proof. reflexivity. Qed.

Example int_of_double_underscore :
  int_of_str sample_python "1__0" = Raise ValueError.
Proof. reflexivity. Qed.

Example int_of_digits_past_the_limit :
  int_of_str sample_python (String.concat "" (repeat "1" 4301))
  = Raise ValueError.
Proof. vm_compute. reflexivity. Qed.

Example int_of_negative_half :
  int_of_float (S754_finite true 7 (-1)) = Ok (-3).
Proof. reflexivity. Qed.

Example index_from_the_end :
  py_index (JList [JInt 1; JInt 2]) (-1) = Ok (JInt 2).
Proof. reflexivity. Qed.

Example index_of_empty_list : py_index (JList []) 0 = Raise IndexError.
Proof. reflexivity. Qed.

Example substring_found : py_contains "track" (JStr "my tracks") = Ok true.
Proof. reflexivity. Qed.

Example int_is_not_iterable : py_contains "track" (JInt 5) = Raise TypeError.
Proof. reflexivity. Qed.

Example zero_is_falsy : py_truthy (JInt 0) = false.
Proof. reflexivity. Qed.

(** ** Selecting the track (lines 19-23) *)

Lemma select_track_missing (top : list (string * json)) :
  assoc_get top "recenttracks" = None →
  select_track (JDict top) = Ok None.
Proof. intros Htop. unfold select_track. by py_eval. Qed.

Lemma select_track_no_member (top rt : list (string * json)) :
  assoc_get top "recenttracks" = Some (JDict rt) →
  assoc_get rt "track" = None →
  select_track (JDict top) = Ok None.
Proof. intros Htop Hrt. unfold select_track. by py_eval. Qed.

Lemma select_track_falsy (top rt : list (string * json)) (tracks : json) :
  assoc_get top "recenttracks" = Some (JDict rt) →
  assoc_get rt "track" = Some tracks →
  py_truthy tracks = false →
  select_track (JDict top) = Ok None.
Proof. intros Htop Hrt Hfalsy. unfold select_track. by py_eval. Qed.

Lemma select_track_first (top rt : list (string * json)) (track : json)
    (rest : list json) :
  assoc_get top "recenttracks" = Some (JDict rt) →
  assoc_get rt "track" = Some (JList (track :: rest)) →
  select_track (JDict top) = Ok (Some track).
Proof. intros Htop Hrt. unfold select_track. by py_eval. Qed.

Lemma select_track_not_an_object (j : json) :
  (∀ top, j ≠ JDict top) →
  select_track j = Raise AttributeError.
Proof.
  intros Hj. destruct j as [| | | | | | d]; try done. by destruct (Hj d).
Qed.

Lemma select_track_scalar (top : list (string * json)) (v : json) :
  assoc_get top "recenttracks" = Some v →
  is_scalar v = true →
  select_track (JDict top) = Raise TypeError.
Proof.
  intros Htop Hv. unfold select_track. py_eval.
  by destruct v.
Qed.

Lemma no_tracks_select (top : list (string * json)) :
  no_tracks top → select_track (JDict top) = Ok None.
Proof.
  intros [Htop | rt Htop Hrt | rt Htop Hrt].
  - by apply select_track_missing.
  - by eapply select_track_no_member.
  - by eapply select_track_falsy.
Qed.

(** ** Adding [date_uts] (lines 26-27) *)

Section Normalization.

Variable py : interpreter.

Lemma add_date_uts_no_date (t : list (string * json)) :
  assoc_get t "date" = None →
  add_date_uts py (JDict t) = Ok (JDict (assoc_set t "date_uts" JNull)).
Proof. intros Ht. unfold add_date_uts. by py_eval. Qed.

Lemma add_date_uts_no_uts (t d : list (string * json)) :
  assoc_get t "date" = Some (JDict d) →
  assoc_get d "uts" = None →
  add_date_uts py (JDict t) = Ok (JDict (assoc_set t "date_uts" JNull)).
Proof. intros Ht Hd. unfold add_date_uts. by py_eval. Qed.

Lemma add_date_uts_falsy (t d : list (string * json)) (v : json) :
  assoc_get t "date" = Some (JDict d) →
  assoc_get d "uts" = Some v →
  py_truthy v = false →
  add_date_uts py (JDict t) = Ok (JDict (assoc_set t "date_uts" JNull)).
Proof. intros Ht Hd Hv. unfold add_date_uts. by py_eval. Qed.

Lemma add_date_uts_truthy (t d : list (string * json)) (v : json) :
  assoc_get t "date" = Some (JDict d) →
  assoc_get d "uts" = Some v →
  py_truthy v = true →
  add_date_uts py (JDict t)
  = n ← py_int py v; Ok (JDict (assoc_set t "date_uts" (JInt n))).
Proof.
  intros Ht Hd Hv. unfold add_date_uts. py_eval. by destruct (py_int py v).
Qed.

Lemma add_date_uts_not_an_object (track : json) :
  (∀ fields, track ≠ JDict fields) →
  add_date_uts py track = Raise AttributeError.
Proof.
  intros H. destruct track as [| | | | | | d]; try done. by destruct (H d).
Qed.

(** Whenever the step completes, the track was an object and the result is
    that object with ["date_uts"] set. *)
Lemma add_date_uts_inv (track track' : json) :
  add_date_uts py track = Ok track' →
  ∃ t v, track = JDict t ∧ track' = JDict (assoc_set t "date_uts" v).
Proof.
  destruct track as [| | | | | |t]; try discriminate.
  unfold add_date_uts. simpl.
  destruct (default (JDict []) (assoc_get t "date")) as [| | | | | |d];
    try discriminate.
  simpl. destruct (py_truthy (default JNull (assoc_get d "uts"))).
  - destruct (py_int py _); try discriminate. simpl. intros [= <-]. eauto.
  - simpl. intros [= <-]. eauto.
Qed.

(** A date in order is read without an exception, and gives its value. *)
Lemma date_in_order_adds (t : list (string * json)) (v : json) :
  date_in_order py t v →
  add_date_uts py (JDict t) = Ok (JDict (assoc_set t "date_uts" v)).
Proof.
  intros [Hdate | d Hdate Huts | d uts Hdate Huts Hfalsy
          | d uts n Hdate Huts Htruthy Hint].
  - by apply add_date_uts_no_date.
  - by eapply add_date_uts_no_uts.
  - by eapply add_date_uts_falsy.
  - erewrite add_date_uts_truthy by done. by rewrite Hint.
Qed.

Lemma add_date_uts_in_order (t : list (string * json)) (track' : json) :
  add_date_uts py (JDict t) = Ok track' →
  ∃ v, date_in_order py t v ∧ track' = JDict (assoc_set t "date_uts" v).
Proof.
  unfold add_date_uts. simpl.
  destruct (assoc_get t "date") as [date |] eqn:Hdate; simpl.
  - destruct date as [| | | | | | d]; try discriminate. simpl.
    destruct (assoc_get d "uts") as [uts |] eqn:Huts; simpl.
    + destruct (py_truthy uts) eqn:Htruthy; simpl.
      * destruct (py_int py uts) as [n |] eqn:Hint; [| discriminate]. simpl.
        intros [= <-]. exists (JInt n). split; [| done].
        by eapply uts_converted.
      * intros [= <-]. exists JNull. split; [| done]. by eapply uts_falsy.
    + intros [= <-]. exists JNull. split; [| done]. by eapply uts_absent.
  - intros [= <-]. exists JNull. split; [| done]. by apply date_absent.
Qed.

Lemma bad_date_raises (t : list (string * json)) :
  bad_date py t → ∃ e, add_date_uts py (JDict t) = Raise e.
Proof.
  intros [date Hdate Hobj | d uts e Hdate Huts Htruthy Hint].
  - unfold add_date_uts. simpl. rewrite Hdate. simpl.
    destruct date as [| | | | | | d]; try (by eexists). by destruct (Hobj d).
  - erewrite add_date_uts_truthy by done. rewrite Hint. by eexists.
Qed.

Lemma add_date_uts_raises_bad_date (t : list (string * json)) (e : exn) :
  add_date_uts py (JDict t) = Raise e → bad_date py t.
Proof.
  unfold add_date_uts. simpl.
  destruct (assoc_get t "date") as [date |] eqn:Hdate; simpl;
    [| discriminate].
  destruct date as [| | | | | | d]; simpl;
    try (intros _; by eapply date_not_an_object).
  destruct (assoc_get d "uts") as [uts |] eqn:Huts; simpl; [| discriminate].
  destruct (py_truthy uts) eqn:Htruthy; simpl; [| discriminate].
  destruct (py_int py uts) as [n | e'] eqn:Hint; simpl; [discriminate |].
  intros _. by eapply uts_not_convertible.
Qed.

End Normalization.

(** ** Rendering (lines 29-36) and the whole [try] block *)

Section Interpretation.

Variable py : interpreter.
Variable args : list (string * string).

Lemma render_badge (code : Z) (t artist : list (string * json))
    (name text : string) :
  args_get args "format" = Some "shields.io" →
  assoc_get t "name" = Some (JStr name) →
  assoc_get t "artist" = Some (JDict artist) →
  assoc_get artist "#text" = Some (JStr text) →
  render py args code (JDict t)
  = Ok (Response (JDict (badge (name ++ " - " ++ text))) 200).
Proof.
  intros Hfmt Hname Hartist Htext. unfold render.
  rewrite bool_decide_eq_true_2 by done. by py_eval.
Qed.

Lemma render_track (code : Z) (track : json) :
  args_get args "format" ≠ Some "shields.io" →
  render py args code track
  = Ok (Response (JDict [("track", track)]) code).
Proof.
  intros Hfmt. unfold render. by rewrite bool_decide_eq_false_2 by done.
Qed.

(** The badge of a track whose name and artist text are any values: what
    [str()] makes of them, when it returns. *)
Lemma render_shown (code : Z) (t artist : list (string * json))
    (name text : json) :
  args_get args "format" = Some "shields.io" →
  assoc_get t "name" = Some name →
  assoc_get t "artist" = Some (JDict artist) →
  assoc_get artist "#text" = Some text →
  render py args code (JDict t)
  = match py_str py name, py_str py text with
    | Ok shown_name, Ok shown_text =>
        Ok (Response (JDict (badge (shown_name ++ " - " ++ shown_text))) 200)
    | Raise e, _ | _, Raise e => Raise e
    end.
Proof.
  intros Hfmt Hname Hartist Htext. unfold render.
  rewrite bool_decide_eq_true_2 by done. simpl. rewrite Hname. simpl.
  destruct (py_str py name); simpl; [| done].
  rewrite Hartist. simpl. rewrite Htext. simpl.
  by destruct (py_str py text).
Qed.

Lemma badge_unavailable_raises (code : Z) (t : list (string * json))
    (v : json) :
  args_get args "format" = Some "shields.io" →
  badge_unavailable t →
  ∃ e, render py args code (JDict (assoc_set t "date_uts" v)) = Raise e.
Proof.
  intros Hfmt Hbadge. unfold render. rewrite bool_decide_eq_true_2 by done.
  simpl.
  rewrite (assoc_get_set_ne t "date_uts" "name"),
    (assoc_get_set_ne t "date_uts" "artist") by done.
  destruct Hbadge as [Hname | Hartist | artist Hartist Hobj
                      | fields Hartist Htext].
  - rewrite Hname. by eexists.
  - destruct (assoc_get t "name") as [name |]; simpl; [| by eexists].
    destruct (py_str py name); simpl; [| by eexists].
    rewrite Hartist. by eexists.
  - destruct (assoc_get t "name") as [name |]; simpl; [| by eexists].
    destruct (py_str py name); simpl; [| by eexists].
    rewrite Hartist. simpl.
    destruct artist as [| | | | | | fields]; try (by eexists).
    by destruct (Hobj fields).
  - destruct (assoc_get t "name") as [name |]; simpl; [| by eexists].
    destruct (py_str py name); simpl; [| by eexists].
    rewrite Hartist. simpl.
    rewrite Htext. by eexists.
Qed.

Lemma interpret_no_track (req : http_response) (j : json) :
  json_result req = Ok j →
  select_track j = Ok None →
  interpret py args req = Ok NO_TRACKS_FOUND.
Proof. intros Hj Hsel. unfold interpret. by py_eval. Qed.

Lemma interpret_selected (req : http_response) (j track : json) :
  json_result req = Ok j →
  select_track j = Ok (Some track) →
  interpret py args req
  = add_date_uts py track ≫= render py args (status_code req).
Proof. intros Hj Hsel. unfold interpret. by py_eval. Qed.

Lemma interpret_well_formed (req : http_response) (resp : response) :
  interpret py args req = Ok resp →
  ∃ fields code, resp = Response (JDict fields) code.
Proof.
  unfold interpret.
  destruct (json_result req) as [j | e]; [| discriminate]. simpl.
  destruct (select_track j) as [[track |] | e]; [| | discriminate]; simpl.
  - destruct (add_date_uts py track) as [track' | e]; [| discriminate].
    simpl. unfold render. case_bool_decide.
    + destruct (py_getitem track' "name" ≫= py_str py); [| discriminate].
      simpl.
      destruct (py_getitem track' "artist") as [artist |]; [| discriminate].
      simpl.
      destruct (py_getitem artist "#text" ≫= py_str py); [| discriminate].
      intros [= <-]. by eexists _, _.
    + intros [= <-]. by eexists _, _.
  - intros [= <-]. by eexists _, _.
Qed.

(** The phases cover the [try] block: it raises exactly when one of them
    does. *)
Lemma raises_in_sound (outcome : result http_response) (e : exn) :
  raises_in py args outcome e →
  outcome ≫= interpret py args = Raise e.
Proof.
  intros [e' | req e' Hj | req j e' Hj Hsel | req j track e' Hj Hsel Hadd
          | req j track track' e' Hj Hsel Hadd Hrender]; simpl.
  - reflexivity.
  - unfold interpret. by py_eval.
  - unfold interpret. by py_eval.
  - erewrite interpret_selected by done. by rewrite Hadd.
  - erewrite interpret_selected by done. by rewrite Hadd.
Qed.

Lemma raises_in_complete (outcome : result http_response) (e : exn) :
  outcome ≫= interpret py args = Raise e →
  raises_in py args outcome e.
Proof.
  destruct outcome as [req | e']; simpl;
    [| intros [= <-]; apply raises_in_call].
  unfold interpret.
  destruct (json_result req) as [j | e1] eqn:Hj; simpl;
    [| intros [= <-]; by apply raises_in_parsing].
  destruct (select_track j) as [[track |] | e2] eqn:Hsel; simpl;
    [| discriminate | intros [= <-]; by eapply raises_in_selection].
  destruct (add_date_uts py track) as [track' | e3] eqn:Hadd; simpl.
  - intros Hrender. by eapply raises_in_rendering.
  - intros [= <-]. by eapply raises_in_normalization.
Qed.

End Interpretation.

(** ** The running handlers *)

Lemma run_done {A} (net : network) (a : A) : run net (Done a) = (a, []).
Proof. reflexivity. Qed.

Lemma run_log_info {A} (net : network) (msg : string) (k : io A) :
  run net (LogInfo msg k) = ((run net k).1, Logged msg :: (run net k).2).
Proof. simpl. by destruct (run net k). Qed.

(** C8. The health handler takes no input; whatever the network, it writes
    its one log line and answers 200 with the fixed body
    [{"message": "type shit"}]. *)
Theorem healthcheck_fixed_response (net : network) :
  run net healthcheck.route
  = (Response (JDict [("message", JStr "type shit")]) 200,
     [Logged "Healthcheck was requested"]).
Proof.
  unfold healthcheck.route. rewrite run_log_info, run_done.
  reflexivity.
Qed.

Section Served.

Variable py : interpreter.
Variable environ : gmap string string.
Variable args : list (string * string).
Variable user : string.
Variable net : network.

#[local] Abbreviation api_key := (environ !! "LASTFM_API_KEY").
#[local] Abbreviation served := (run net (route py environ args user)).

Lemma served_unconfigured :
  optional_truthy api_key = false →
  served = (INTERNAL_ERROR, []).
Proof. intros Hkey. unfold route. rewrite Hkey. apply run_done. Qed.

Lemma served_with_key :
  optional_truthy api_key = true →
  served
  = (recover (λ _, INTERNAL_ERROR)
       (net (request_url user api_key) TIMEOUT ≫= interpret py args),
     [Requested (request_url user api_key) TIMEOUT]).
Proof. intros Hkey. unfold route. by rewrite Hkey. Qed.

(** C1. Without an API key in the environment (variable unset, or set to the
    empty string) the latest-song handler answers 500 with
    [{"message": "INTERNAL_ERROR"}], whatever the request and the network,
    and the run has no event at all: no GET is issued. *)
Theorem missing_api_key_internal_error :
  environ !! "LASTFM_API_KEY" = None
  ∨ environ !! "LASTFM_API_KEY" = Some "" →
  run net (route py environ args user)
  = (Response (JDict [("message", JStr "INTERNAL_ERROR")]) 500, []).
Proof.
  intros Hkey. apply served_unconfigured.
  by apply optional_truthy_false.
Qed.

(** C7. An exception in any phase of the [try] block (the GET, [.json()],
    the selection of the track, [date_uts], the rendering) gives 500 with
    [{"message": "INTERNAL_ERROR"}]; and for every environment, request and
    network the run ends with a response whose body is a JSON object. *)
Theorem every_exception_internal_error :
  (∀ e,
     optional_truthy (environ !! "LASTFM_API_KEY") = true →
     raises_in py args
       (net (request_url user (environ !! "LASTFM_API_KEY")) TIMEOUT) e →
     (run net (route py environ args user)).1
     = Response (JDict [("message", JStr "INTERNAL_ERROR")]) 500)
  ∧ ∃ fields code,
      (run net (route py environ args user)).1
      = Response (JDict fields) code.
Proof.
  split.
  - intros e Hkey He. apply raises_in_sound in He.
    rewrite served_with_key by done. by rewrite He.
  - destruct (optional_truthy api_key) eqn:Hkey.
    + rewrite served_with_key by done. simpl.
      destruct (net _ _ ≫= interpret py args) as [resp | e] eqn:Hrun;
        simpl; [| by eexists _, _].
      destruct (net _ _) as [req | e]; [| discriminate].
      by eapply interpret_well_formed.
    + rewrite served_unconfigured by done. by eexists _, _.
Qed.

End Served.

(** ** The handler with an API key configured *)

Section Configured.

Variable py : interpreter.
Variable environ : gmap string string.
Variable args : list (string * string).
Variable user : string.
Variable net : network.
Variable key : string.

Hypothesis key_set : environ !! "LASTFM_API_KEY" = Some key.
Hypothesis key_nonempty : key ≠ "".

#[local] Abbreviation url := (request_url user (Some key)).
#[local] Abbreviation served := (run net (route py environ args user)).

Lemma served_configured :
  served
  = (recover (λ _, INTERNAL_ERROR) (net url TIMEOUT ≫= interpret py args),
     [Requested url TIMEOUT]).
Proof.
  rewrite served_with_key by by eapply optional_truthy_true.
  by rewrite key_set.
Qed.

Lemma served_raise (e : exn) :
  net url TIMEOUT ≫= interpret py args = Raise e →
  served = (INTERNAL_ERROR, [Requested url TIMEOUT]).
Proof. intros H. rewrite served_configured. by rewrite H. Qed.

(** C3, as amended. When the GET raises (network error, timeout), when the
    body is not JSON, and when the parsed value has a shape the handler
    cannot traverse (not an object; ["recenttracks"] a None, boolean or
    number; a first track that is not an object), the handler answers 500
    with [{"message": "INTERNAL_ERROR"}], the same for every cause. An
    object that only lacks the track list is not among these failures. *)
Theorem upstream_failure_internal_error :
  upstream_failure (net (request_url user (Some key)) TIMEOUT) →
  run net (route py environ args user)
  = (Response (JDict [("message", JStr "INTERNAL_ERROR")]) 500,
     [Requested (request_url user (Some key)) TIMEOUT]).
Proof.
  intros Hfail.
  assert (∃ e, net url TIMEOUT ≫= interpret py args = Raise e) as [e He].
  { destruct Hfail as [e | code e | code j Hj | code top v Htop Hv
                       | code top rt track rest Htop Hrt Htrack].
    - by exists e.
    - by exists e.
    - exists AttributeError. simpl. unfold interpret. simpl.
      by rewrite select_track_not_an_object.
    - exists TypeError. simpl. unfold interpret. simpl.
      by erewrite select_track_scalar.
    - exists AttributeError. simpl.
      erewrite interpret_selected; [| done | by eapply select_track_first].
      by rewrite add_date_uts_not_an_object. }
  exact (served_raise e He).
Qed.

Section Answered.

Variable req : http_response.

Hypothesis call_answered : net url TIMEOUT = Ok req.

Lemma served_answered :
  served
  = (recover (λ _, INTERNAL_ERROR) (interpret py args req),
     [Requested url TIMEOUT]).
Proof. rewrite served_configured. by rewrite call_answered. Qed.

Lemma served_selected (top rt : list (string * json)) (track normalized : json)
    (rest : list json) :
  json_result req = Ok (JDict top) →
  assoc_get top "recenttracks" = Some (JDict rt) →
  assoc_get rt "track" = Some (JList (track :: rest)) →
  add_date_uts py track = Ok normalized →
  served
  = (recover (λ _, INTERNAL_ERROR)
       (render py args (status_code req) normalized),
     [Requested url TIMEOUT]).
Proof.
  intros Hj Htop Hrt Hadd. rewrite served_answered.
  erewrite interpret_selected; [| done | by eapply select_track_first].
  by rewrite Hadd.
Qed.

Lemma served_unreadable (top rt : list (string * json)) (track : json)
    (rest : list json) (e : exn) :
  json_result req = Ok (JDict top) →
  assoc_get top "recenttracks" = Some (JDict rt) →
  assoc_get rt "track" = Some (JList (track :: rest)) →
  add_date_uts py track = Raise e →
  served = (INTERNAL_ERROR, [Requested url TIMEOUT]).
Proof.
  intros Hj Htop Hrt Hadd. rewrite served_answered.
  erewrite interpret_selected; [| done | by eapply select_track_first].
  by rewrite Hadd.
Qed.

(** C2. When the upstream body parses to an object in which the track list
    is absent (no ["recenttracks"], or no ["track"] in it) or empty, the
    handler answers 200 with [{"message": "NO_TRACKS_FOUND"}], whatever
    status the upstream reported. *)
Theorem absent_or_empty_tracks_not_found (top : list (string * json)) :
  json_result req = Ok (JDict top) →
  no_tracks top →
  run net (route py environ args user)
  = (Response (JDict [("message", JStr "NO_TRACKS_FOUND")]) 200,
     [Requested (request_url user (Some key)) TIMEOUT]).
Proof.
  intros Hj Hnone. rewrite served_answered.
  erewrite interpret_no_track; [done | done |].
  by apply no_tracks_select.
Qed.

(** C5, as amended. With [format=shields.io], when the first track of the
    upstream list has a name and an artist with a display text (two strings)
    and its date is in order (no ["date"], or a date object whose [uts] is
    missing, falsy, or converts to an integer), the handler answers 200 with
    exactly the three-field badge whose message is the name, [" - "], and
    the artist text. When the date is not in order (a ["date"] that is not
    an object, a truthy [uts] that does not convert), the answer is 500 with
    INTERNAL_ERROR: lines 26-27 run before the badge is built. *)
Theorem shields_badge (top rt t artist : list (string * json))
    (rest : list json) (name text : string) :
  args_get args "format" = Some "shields.io" →
  json_result req = Ok (JDict top) →
  assoc_get top "recenttracks" = Some (JDict rt) →
  assoc_get rt "track" = Some (JList (JDict t :: rest)) →
  assoc_get t "name" = Some (JStr name) →
  assoc_get t "artist" = Some (JDict artist) →
  assoc_get artist "#text" = Some (JStr text) →
  ((∃ v, date_in_order py t v) →
   run net (route py environ args user)
   = (Response
        (JDict [ ("schemaVersion", JInt 1);
                 ("label", JStr "Last.FM Last Played Song");
                 ("message", JStr (name ++ " - " ++ text)) ])
        200,
      [Requested (request_url user (Some key)) TIMEOUT]))
  ∧ (bad_date py t →
     run net (route py environ args user)
     = (Response (JDict [("message", JStr "INTERNAL_ERROR")]) 500,
        [Requested (request_url user (Some key)) TIMEOUT])).
Proof.
  intros Hfmt Hj Htop Hrt Hname Hartist Htext. split.
  - intros [v Hdate].
    erewrite served_selected; [| done | done | done | by apply date_in_order_adds].
    erewrite render_badge; [done | done | | | done].
    + by rewrite assoc_get_set_ne.
    + by rewrite assoc_get_set_ne.
  - intros Hbad. destruct (bad_date_raises py t Hbad) as [e He].
    by eapply served_unreadable.
Qed.

(** C6, as amended. With any other format flag (or none), when the first
    element of the upstream list is an object whose date is in order, the
    handler answers [{"track": <that object with date_uts set>}] with the
    status code the upstream reported; [date_uts] is None, or the integer
    that a truthy [uts] converts to. A first element that is not an object,
    or whose date is not in order, is answered with 500 INTERNAL_ERROR. *)
Theorem track_response_upstream_status (top rt : list (string * json))
    (track : json) (rest : list json) :
  args_get args "format" ≠ Some "shields.io" →
  json_result req = Ok (JDict top) →
  assoc_get top "recenttracks" = Some (JDict rt) →
  assoc_get rt "track" = Some (JList (track :: rest)) →
  (∀ t v,
     track = JDict t →
     date_in_order py t v →
     run net (route py environ args user)
     = (Response (JDict [("track", JDict (assoc_set t "date_uts" v))])
          (status_code req),
        [Requested (request_url user (Some key)) TIMEOUT]))
  ∧ ((∀ t, track ≠ JDict t) ∨ (∃ t, track = JDict t ∧ bad_date py t) →
     run net (route py environ args user)
     = (Response (JDict [("message", JStr "INTERNAL_ERROR")]) 500,
        [Requested (request_url user (Some key)) TIMEOUT])).
Proof.
  intros Hfmt Hj Htop Hrt. split.
  - intros t v -> Hdate.
    erewrite served_selected; [| done | done | done | by apply date_in_order_adds].
    by rewrite render_track.
  - intros [Hobj | (t & -> & Hbad)].
    + eapply served_unreadable; [done | done | done |].
      by apply add_date_uts_not_an_object.
    + destruct (bad_date_raises py t Hbad) as [e He].
      by eapply served_unreadable.
Qed.

(** C9. Without the badge format, whenever the answer carries an object
    under ["track"], that object is the first upstream track with
    ["date_uts"] set (added or overwritten): every other key has the value
    it had upstream, and the other items stand as they stood. *)
Theorem track_passed_through (top rt : list (string * json))
    (track returned : json) (rest : list json) :
  args_get args "format" ≠ Some "shields.io" →
  json_result req = Ok (JDict top) →
  assoc_get top "recenttracks" = Some (JDict rt) →
  assoc_get rt "track" = Some (JList (track :: rest)) →
  lookup_field (body (run net (route py environ args user)).1) "track"
  = Some returned →
  ∃ t v,
    track = JDict t
    ∧ returned = JDict (assoc_set t "date_uts" v)
    ∧ lookup_field returned "date_uts" = Some v
    ∧ (∀ k, k ≠ "date_uts" → lookup_field returned k = assoc_get t k)
    ∧ filter (λ item, item.1 ≠ "date_uts") (assoc_set t "date_uts" v)
      = filter (λ item, item.1 ≠ "date_uts") t.
Proof.
  intros Hfmt Hj Htop Hrt. rewrite served_answered.
  erewrite interpret_selected; [| done | by eapply select_track_first].
  destruct (add_date_uts py track) as [normalized | e] eqn:Hadd; simpl.
  - rewrite render_track by done. simpl. intros [= <-].
    destruct (add_date_uts_inv _ _ _ Hadd) as (t & v & -> & ->).
    exists t, v. split_and!; [done | done | | |].
    + apply assoc_get_set_eq.
    + intros k Hk. simpl. by rewrite assoc_get_set_ne.
    + apply assoc_set_others.
  - discriminate.
Qed.

(** C10, as amended. A track whose [date] is an object without [uts], or
    with the empty string as [uts], gets [date_uts] None without any
    exception. Without the badge format the answer is then the track with
    the upstream status. With [format=shields.io] the rest of the track
    decides: the badge when it has a name and an artist text, INTERNAL_ERROR
    when the name, the artist or the artist text is missing. *)
Theorem missing_or_empty_uts (top rt t d : list (string * json))
    (rest : list json) :
  json_result req = Ok (JDict top) →
  assoc_get top "recenttracks" = Some (JDict rt) →
  assoc_get rt "track" = Some (JList (JDict t :: rest)) →
  assoc_get t "date" = Some (JDict d) →
  assoc_get d "uts" = None ∨ assoc_get d "uts" = Some (JStr "") →
  let normalized := assoc_set t "date_uts" JNull in
  add_date_uts py (JDict t) = Ok (JDict normalized)
  ∧ (args_get args "format" ≠ Some "shields.io" →
     (run net (route py environ args user)).1
     = Response (JDict [("track", JDict normalized)]) (status_code req))
  ∧ (∀ artist name text,
       args_get args "format" = Some "shields.io" →
       assoc_get t "name" = Some (JStr name) →
       assoc_get t "artist" = Some (JDict artist) →
       assoc_get artist "#text" = Some (JStr text) →
       (run net (route py environ args user)).1
       = Response (JDict (badge (name ++ " - " ++ text))) 200)
  ∧ (args_get args "format" = Some "shields.io" →
     badge_unavailable t →
     (run net (route py environ args user)).1
     = Response (JDict [("message", JStr "INTERNAL_ERROR")]) 500).
Proof.
  intros Hj Htop Hrt Hdate Huts normalized. subst normalized.
  assert (add_date_uts py (JDict t) = Ok (JDict (assoc_set t "date_uts" JNull)))
    as Hadd.
  { destruct Huts as [Huts | Huts].
    - by eapply add_date_uts_no_uts.
    - by eapply add_date_uts_falsy. }
  split_and!; [done | | |].
  - intros Hfmt.
    erewrite served_selected by done. by rewrite render_track.
  - intros artist name text Hfmt Hname Hartist Htext.
    erewrite served_selected by done.
    erewrite render_badge; [done | done | | | done].
    + by rewrite assoc_get_set_ne.
    + by rewrite assoc_get_set_ne.
  - intros Hfmt Hbadge.
    erewrite served_selected by done.
    destruct (badge_unavailable_raises py args (status_code req) t JNull
                Hfmt Hbadge) as [e He].
    by rewrite He.
Qed.

End Answered.

End Configured.

(** C4, as amended. On a track with fields [t], [date_uts] is set to the
    integer that [date.uts] converts to when [date.uts] is there and truthy
    (for the string ["1700000000"], the integer 1700000000), and to None
    when the track has no [date]. *)
Theorem date_uts_conversion (py : interpreter) (t : list (string * json))
    (w : json) :
  date_uts_spec py t w →
  add_date_uts py (JDict t) = Ok (JDict (assoc_set t "date_uts" w)).
Proof.
  intros [d v n Hdate Huts Htruthy Hint | Hdate].
  - erewrite add_date_uts_truthy by done. by rewrite Hint.
  - by apply add_date_uts_no_date.
Qed.

(** ** The theorems at sample inputs *)

Lemma missing_api_key_witness :
  run (answering 200 (recent (JList [JDict song_fields])))
      (route sample_python ∅ [("format", "shields.io")] "rj")
  = (Response (JDict [("message", JStr "INTERNAL_ERROR")]) 500, []).
Proof.
  apply missing_api_key_internal_error. left. reflexivity.
Defined.

Lemma absent_or_empty_tracks_witness :
  run (answering 200 (recent (JList [])))
      (route sample_python sample_environ [] "rj")
  = (Response (JDict [("message", JStr "NO_TRACKS_FOUND")]) 200,
     [Requested (sample_url "rj") 10]).
Proof.
  apply (absent_or_empty_tracks_not_found sample_python sample_environ [] "rj"
           (answering 200 (recent (JList []))) "0123456789abcdef"
           eq_refl ltac:(discriminate)
           (HttpResponse 200 (Ok (recent (JList [])))) eq_refl
           [("recenttracks", JDict [("track", JList [])])] eq_refl).
  apply (empty_track_list _ [("track", JList [])]); reflexivity.
Defined.

(** C3, as stated, fails on the error payload of an unknown user: an object
    without ["recenttracks"] is answered with 200 NO_TRACKS_FOUND, not with
    500 INTERNAL_ERROR. *)
Lemma error_payload_not_internal_error :
  run (answering 404 error_payload)
      (route sample_python sample_environ [] "nobody")
  = (Response (JDict [("message", JStr "NO_TRACKS_FOUND")]) 200,
     [Requested (sample_url "nobody") 10])
  ∧ (run (answering 404 error_payload)
         (route sample_python sample_environ [] "nobody")).1
    ≠ Response (JDict [("message", JStr "INTERNAL_ERROR")]) 500.
Proof. split; [reflexivity | discriminate]. Defined.

Lemma upstream_failure_witness :
  run (failing Timeout) (route sample_python sample_environ [] "rj")
  = (Response (JDict [("message", JStr "INTERNAL_ERROR")]) 500,
     [Requested (sample_url "rj") 10]).
Proof.
  apply (upstream_failure_internal_error sample_python sample_environ [] "rj"
           (failing Timeout) "0123456789abcdef").
  - reflexivity.
  - discriminate.
  - apply call_failed.
Defined.

Lemma date_uts_conversion_witness :
  add_date_uts sample_python (JDict dated_song_fields)
  = Ok (JDict (song_fields
               ++ [ ("date", JDict [ ("uts", JStr "1700000000");
                                     ("#text", JStr "14 Nov 2023, 22:13") ]);
                    ("date_uts", JInt 1700000000) ])).
Proof.
  apply (date_uts_conversion sample_python dated_song_fields
           (JInt 1700000000)).
  apply (date_uts_converted sample_python dated_song_fields
           [("uts", JStr "1700000000"); ("#text", JStr "14 Nov 2023, 22:13")]
           (JStr "1700000000") 1700000000);
    reflexivity.
Defined.

(** C4, as stated, fails on a timestamp that is the number zero: [date.uts]
    is there and converts to the integer 0, yet [date_uts] is None. *)
Lemma zero_uts_gives_none :
  lookup_field (JDict epoch_fields) "date" = Some (JDict [("uts", JInt 0)])
  ∧ py_int sample_python (JInt 0) = Ok 0
  ∧ add_date_uts sample_python (JDict epoch_fields)
    = Ok (JDict [("date", JDict [("uts", JInt 0)]); ("date_uts", JNull)])
  ∧ add_date_uts sample_python (JDict epoch_fields)
    ≠ Ok (JDict [("date", JDict [("uts", JInt 0)]); ("date_uts", JInt 0)]).
Proof.
  split_and!; [reflexivity | reflexivity | reflexivity | discriminate].
Defined.

Lemma shields_badge_witness :
  run (answering 200 (recent (JList [JDict song_fields])))
      (route sample_python sample_environ [("format", "shields.io")] "rj")
  = (Response
       (JDict [ ("schemaVersion", JInt 1);
                ("label", JStr "Last.FM Last Played Song");
                ("message", JStr "Song - Band") ])
       200,
     [Requested (sample_url "rj") 10]).
Proof.
  apply (proj1
           (shields_badge sample_python sample_environ
              [("format", "shields.io")] "rj"
              (answering 200 (recent (JList [JDict song_fields])))
              "0123456789abcdef" eq_refl ltac:(discriminate)
              (HttpResponse 200 (Ok (recent (JList [JDict song_fields]))))
              eq_refl
              [("recenttracks", JDict [("track", JList [JDict song_fields])])]
              [("track", JList [JDict song_fields])]
              song_fields [("#text", JStr "Band")] []
              "Song" "Band"
              eq_refl eq_refl eq_refl eq_refl eq_refl eq_refl eq_refl)).
  exists JNull. apply date_absent. reflexivity.
Defined.

(** C5, as stated, fails on a track that has a name and an artist text and
    whose ["date"] is null: line 26 raises, and the answer is 500
    INTERNAL_ERROR instead of the badge. *)
Lemma badge_lost_to_null_date :
  lookup_field (JDict (song_fields ++ [("date", JNull)])) "name"
  = Some (JStr "Song")
  ∧ lookup_field (JDict (song_fields ++ [("date", JNull)])) "artist"
    = Some (JDict [("#text", JStr "Band")])
  ∧ run (answering 200
           (recent (JList [JDict (song_fields ++ [("date", JNull)])])))
        (route sample_python sample_environ [("format", "shields.io")] "rj")
    = (Response (JDict [("message", JStr "INTERNAL_ERROR")]) 500,
       [Requested (sample_url "rj") 10])
  ∧ (run (answering 200
            (recent (JList [JDict (song_fields ++ [("date", JNull)])])))
         (route sample_python sample_environ [("format", "shields.io")] "rj")).1
    ≠ Response
        (JDict [ ("schemaVersion", JInt 1);
                 ("label", JStr "Last.FM Last Played Song");
                 ("message", JStr "Song - Band") ])
        200.
Proof.
  split_and!; [reflexivity | reflexivity | reflexivity | discriminate].
Defined.

Lemma track_response_upstream_status_witness :
  run (answering 203 (recent (JList [JDict dated_song_fields])))
      (route sample_python sample_environ [] "rj")
  = (Response
       (JDict [("track",
                JDict (dated_song_fields ++ [("date_uts", JInt 1700000000)]))])
       203,
     [Requested (sample_url "rj") 10]).
Proof.
  apply (proj1
           (track_response_upstream_status sample_python sample_environ [] "rj"
              (answering 203 (recent (JList [JDict dated_song_fields])))
              "0123456789abcdef" eq_refl ltac:(discriminate)
              (HttpResponse 203 (Ok (recent (JList [JDict dated_song_fields]))))
              eq_refl
              [("recenttracks",
                JDict [("track", JList [JDict dated_song_fields])])]
              [("track", JList [JDict dated_song_fields])]
              (JDict dated_song_fields) []
              ltac:(discriminate) eq_refl eq_refl eq_refl)
           dated_song_fields (JInt 1700000000) eq_refl).
  apply (uts_converted _ _
           [("uts", JStr "1700000000"); ("#text", JStr "14 Nov 2023, 22:13")]
           (JStr "1700000000") 1700000000);
    reflexivity.
Defined.

(** C6, as stated, fails on a track list that is not empty when its first
    track has a timestamp that does not convert, and when its first element
    is not an object: the answer is 500 INTERNAL_ERROR, not the track with
    the upstream status. *)
Lemma unreadable_track_not_returned :
  run (answering 203
         (recent (JList [JDict (song_fields
                                ++ [("date", JDict [("uts", JStr "soon")])])])))
      (route sample_python sample_environ [] "rj")
  = (Response (JDict [("message", JStr "INTERNAL_ERROR")]) 500,
     [Requested (sample_url "rj") 10])
  ∧ run (answering 203 (recent (JList [JInt 7])))
        (route sample_python sample_environ [] "rj")
    = (Response (JDict [("message", JStr "INTERNAL_ERROR")]) 500,
       [Requested (sample_url "rj") 10])
  ∧ status (run (answering 203
                   (recent (JList [JDict (song_fields
                                          ++ [("date",
                                               JDict [("uts", JStr "soon")])])])))
                (route sample_python sample_environ [] "rj")).1
    ≠ 203
  ∧ lookup_field
      (body (run (answering 203
                    (recent (JList [JDict (song_fields
                                           ++ [("date",
                                                JDict [("uts", JStr "soon")])])])))
                 (route sample_python sample_environ [] "rj")).1)
      "track"
    = None.
Proof.
  split_and!; [reflexivity | reflexivity | discriminate | reflexivity].
Defined.

Lemma track_passed_through_witness :
  ∃ t v,
    JDict dated_song_fields = JDict t
    ∧ JDict (dated_song_fields ++ [("date_uts", JInt 1700000000)])
      = JDict (assoc_set t "date_uts" v)
    ∧ lookup_field
        (JDict (dated_song_fields ++ [("date_uts", JInt 1700000000)]))
        "date_uts"
      = Some v
    ∧ (∀ k, k ≠ "date_uts" →
         lookup_field
           (JDict (dated_song_fields ++ [("date_uts", JInt 1700000000)])) k
         = assoc_get t k)
    ∧ filter (λ item, item.1 ≠ "date_uts") (assoc_set t "date_uts" v)
      = filter (λ item, item.1 ≠ "date_uts") t.
Proof.
  apply (track_passed_through sample_python sample_environ [("format", "json")]
           "rj" (answering 200 (recent (JList [JDict dated_song_fields])))
           "0123456789abcdef" eq_refl ltac:(discriminate)
           (HttpResponse 200 (Ok (recent (JList [JDict dated_song_fields]))))
           eq_refl
           [("recenttracks", JDict [("track", JList [JDict dated_song_fields])])]
           [("track", JList [JDict dated_song_fields])]
           (JDict dated_song_fields)
           (JDict (dated_song_fields ++ [("date_uts", JInt 1700000000)])) []);
    [discriminate | reflexivity ..].
Defined.

Lemma missing_or_empty_uts_witness :
  add_date_uts sample_python (JDict undated_song_fields)
  = Ok (JDict (undated_song_fields ++ [("date_uts", JNull)]))
  ∧ (run (answering 200 (recent (JList [JDict undated_song_fields])))
         (route sample_python sample_environ [] "rj")).1
    = Response
        (JDict [("track", JDict (undated_song_fields ++ [("date_uts", JNull)]))])
        200.
Proof.
  destruct (missing_or_empty_uts sample_python sample_environ [] "rj"
              (answering 200 (recent (JList [JDict undated_song_fields])))
              "0123456789abcdef" eq_refl ltac:(discriminate)
              (HttpResponse 200 (Ok (recent (JList [JDict undated_song_fields]))))
              eq_refl
              [("recenttracks",
                JDict [("track", JList [JDict undated_song_fields])])]
              [("track", JList [JDict undated_song_fields])]
              undated_song_fields [("uts", JStr "")] []
              eq_refl eq_refl eq_refl eq_refl (or_intror eq_refl))
    as (Hadd & Htrack & _).
  split; [exact Hadd | apply Htrack; discriminate].
Defined.

(** C10, as stated, fails with the badge format: on a track whose date
    carries an empty timestamp and that has no name, [date_uts] is set to
    None without an exception, yet the answer is 500 INTERNAL_ERROR. *)
Lemma empty_uts_without_name_internal_error :
  add_date_uts sample_python (JDict [("date", JDict [("uts", JStr "")])])
  = Ok (JDict [("date", JDict [("uts", JStr "")]); ("date_uts", JNull)])
  ∧ run (answering 200
           (recent (JList [JDict [("date", JDict [("uts", JStr "")])]])))
        (route sample_python sample_environ [("format", "shields.io")] "rj")
    = (Response (JDict [("message", JStr "INTERNAL_ERROR")]) 500,
       [Requested (sample_url "rj") 10]).
Proof. split; reflexivity. Defined.

Lemma every_exception_witness :
  (run (answering 200 (JList [])) (route sample_python sample_environ [] "rj")).1
  = Response (JDict [("message", JStr "INTERNAL_ERROR")]) 500.
Proof.
  apply (proj1 (every_exception_internal_error sample_python sample_environ []
                  "rj" (answering 200 (JList [])))
           AttributeError eq_refl).
  apply (raises_in_selection _ _ _ (JList [])); reflexivity.
Defined.

(** ** At the edges of the statements above *)

(** A ["recenttracks"] member that is null is not a missing track list: the
    membership test raises. *)
Example null_recenttracks_internal_error :
  (run (answering 200 (JDict [("recenttracks", JNull)]))
       (route sample_python sample_environ [] "rj")).1
  = INTERNAL_ERROR.
Proof. reflexivity. Qed.

(** The badge does not show [date_uts], yet it is rendered after lines
    26-27: a timestamp that does not convert costs the badge. *)
Example badge_after_date_uts :
  (run (answering 200
          (recent (JList [JDict (song_fields
                                 ++ [("date", JDict [("uts", JStr "soon")])])])))
       (route sample_python sample_environ [("format", "shields.io")] "rj")).1
  = INTERNAL_ERROR.
Proof. reflexivity. Qed.

(** A track without a name has no badge. *)
Example badge_needs_a_name :
  (run (answering 200 (recent (JList [JDict [("date", JDict [])]])))
       (route sample_python sample_environ [("format", "shields.io")] "rj")).1
  = INTERNAL_ERROR.
Proof. reflexivity. Qed.

(** The first value of a repeated query parameter decides. *)
Example first_format_decides :
  (run (answering 200 (recent (JList [JDict song_fields])))
       (route sample_python sample_environ
          [("format", "json"); ("format", "shields.io")] "rj")).1
  = Response (JDict [("track", JDict (song_fields ++ [("date_uts", JNull)]))])
      200.
Proof. reflexivity. Qed.

(** ** More on the latest-song handler *)

Lemma assoc_set_set {V} (d : list (string * V)) (k : string) (v w : V) :
  assoc_set (assoc_set d k v) k w = assoc_set d k w.
Proof.
  induction d as [| [k' v'] d IH]; simpl.
  - by rewrite String.eqb_refl.
  - destruct (String.eqb k' k) eqn:Hk; simpl; rewrite Hk; [done |].
    by rewrite IH.
Qed.

Lemma response_eq_inv (b b' : json) (code code' : Z) :
  Response b code = Response b' code' → b = b' ∧ code = code'.
Proof. by intros [= -> ->]. Qed.

(** Every answer of the [try] block has one of three shapes. *)
Lemma interpret_shapes (py : interpreter) (args : list (string * string))
    (req : http_response) (resp : response) :
  interpret py args req = Ok resp →
  resp = NO_TRACKS_FOUND
  ∨ (∃ message,
       args_get args "format" = Some "shields.io"
       ∧ resp = Response (JDict (badge message)) 200)
  ∨ (∃ t,
       args_get args "format" ≠ Some "shields.io"
       ∧ resp = Response (JDict [("track", JDict t)]) (status_code req)).
Proof.
  unfold interpret.
  destruct (json_result req) as [j | e]; [| discriminate]. simpl.
  destruct (select_track j) as [[track |] | e]; [| | discriminate]; simpl.
  - destruct (add_date_uts py track) as [track' | e] eqn:Hadd;
      [| discriminate].
    simpl. unfold render. case_bool_decide as Hfmt.
    + destruct (py_getitem track' "name" ≫= py_str py) as [name |];
        [| discriminate].
      simpl.
      destruct (py_getitem track' "artist") as [artist |]; [| discriminate].
      simpl.
      destruct (py_getitem artist "#text" ≫= py_str py) as [text |];
        [| discriminate].
      intros [= <-]. right; left. by eexists.
    + destruct (add_date_uts_inv _ _ _ Hadd) as (t & v & -> & ->).
      intros [= <-]. right; right. by eexists.
  - intros [= <-]. by left.
Qed.

Section Shapes.

Variable py : interpreter.
Variable environ : gmap string string.
Variable args : list (string * string).
Variable user : string.
Variable net : network.

(** X2. Whatever the environment, the request and the network, the
    latest-song handler gives one of four answers: INTERNAL_ERROR with 500,
    NO_TRACKS_FOUND with 200, the badge with 200 (only for
    [format=shields.io]), or an object under ["track"] with the status of
    the upstream response (only for another format). *)
Theorem answer_shapes :
  let answer := (run net (route py environ args user)).1 in
  answer = Response (JDict [("message", JStr "INTERNAL_ERROR")]) 500
  ∨ answer = Response (JDict [("message", JStr "NO_TRACKS_FOUND")]) 200
  ∨ (∃ message,
       args_get args "format" = Some "shields.io"
       ∧ answer
         = Response
             (JDict [ ("schemaVersion", JInt 1);
                      ("label", JStr "Last.FM Last Played Song");
                      ("message", JStr message) ])
             200)
  ∨ (∃ req t,
       net (request_url user (environ !! "LASTFM_API_KEY")) TIMEOUT = Ok req
       ∧ args_get args "format" ≠ Some "shields.io"
       ∧ answer = Response (JDict [("track", JDict t)]) (status_code req)).
Proof.
  simpl. destruct (optional_truthy (environ !! "LASTFM_API_KEY")) eqn:Hkey.
  - rewrite served_with_key by done. simpl.
    destruct (net _ _) as [req | e]; simpl; [| by left].
    destruct (interpret py args req) as [resp | e] eqn:Hrun; simpl;
      [| by left].
    destruct (interpret_shapes _ _ _ _ Hrun) as [-> | [(m & ? & ->) | (t & ? & ->)]].
    + by right; left.
    + right; right; left. by exists m.
    + right; right; right. by exists req, t.
  - rewrite served_unconfigured by done. by left.
Qed.

End Shapes.

(** Line 20 holds exactly on the values of [track_list_missing]. *)
Lemma select_track_none_iff (j : json) :
  select_track j = Ok None
  ↔ ∃ top,
      j = JDict top
      ∧ track_list_missing (default (JDict []) (assoc_get top "recenttracks")).
Proof.
  split.
  - destruct j as [| | | | | | top]; try discriminate.
    intros Hsel. exists top. split; [done |].
    unfold select_track in Hsel. simpl in Hsel.
    destruct (default (JDict []) (assoc_get top "recenttracks"))
      as [| | | | s | l | rt]; try discriminate; simpl in Hsel.
    + destruct (is_substring "track" s) eqn:Hs; [discriminate |].
      by apply track_not_a_substring.
    + destruct (existsb (str_equals "track") l) eqn:Hl; [discriminate |].
      by apply track_not_an_element.
    + destruct (assoc_get rt "track") as [tracks |] eqn:Hrt;
        [| by apply track_not_a_key].
      simpl in Hsel. destruct (py_truthy tracks) eqn:Htruthy;
        [| by eapply track_falsy].
      simpl in Hsel. by destruct (py_index tracks 0).
  - intros (top & -> & Hmissing). unfold select_track. simpl.
    destruct Hmissing as [rt Hrt | rt tracks Hrt Hfalsy | l Hl | s Hs]; simpl.
    + by rewrite Hrt.
    + rewrite Hrt. simpl. by rewrite Hfalsy.
    + by rewrite Hl.
    + by rewrite Hs.
Qed.

Lemma render_not_no_tracks (py : interpreter) (args : list (string * string))
    (code : Z) (track : json) (resp : response) :
  render py args code track = Ok resp → resp ≠ NO_TRACKS_FOUND.
Proof.
  unfold render. case_bool_decide.
  - destruct (py_getitem track "name" ≫= py_str py); [| discriminate]. simpl.
    destruct (py_getitem track "artist") as [artist |]; [| discriminate].
    simpl. destruct (py_getitem artist "#text" ≫= py_str py);
      [| discriminate].
    by intros [= <-].
  - by intros [= <-].
Qed.

Lemma py_index_truthy_not_a_list (py : interpreter) (tracks : json) :
  py_truthy tracks = true →
  (∀ l, tracks ≠ JList l) →
  ∃ e, py_index tracks 0 ≫= add_date_uts py = Raise e.
Proof.
  intros Htruthy Hlist.
  destruct tracks as [| b | z | f | s | l | d]; simpl;
    try (by eexists); try done.
  - destruct s as [| c s]; [done |]. simpl.
    unfold py_position.
    replace (0 <? Z.of_nat (length (c :: list_ascii_of_string s))) with true
      by (symmetry; apply Z.ltb_lt; simpl; lia).
    simpl. by eexists.
  - by destruct (Hlist l).
Qed.

Section Upstream.

Variable py : interpreter.
Variable environ : gmap string string.
Variable args : list (string * string).
Variable user : string.
Variable net : network.
Variable key : string.

Hypothesis key_set : environ !! "LASTFM_API_KEY" = Some key.
Hypothesis key_nonempty : key ≠ "".

#[local] Abbreviation url := (request_url user (Some key)).
#[local] Abbreviation served := (run net (route py environ args user)).

(** X1. With a key configured the handler issues exactly one GET, whatever
    the network answers or raises: to the fixed address followed by the
    user name as it came and the key, with a timeout of 10. *)
Theorem one_request_whatever_the_outcome :
  (run net (route py environ args user)).2
  = [ Requested
        ("https://ws.audioscrobbler.com/2.0/"
         ++ "?method=user.getrecenttracks&limit=1&format=json"
         ++ "&user=" ++ user ++ "&api_key=" ++ key)
        10 ].
Proof. by rewrite (served_configured py environ args user net key). Qed.

Lemma served_raises (e : exn) :
  net url TIMEOUT ≫= interpret py args = Raise e →
  served = (INTERNAL_ERROR, [Requested url TIMEOUT]).
Proof.
  intros He. rewrite (served_configured py environ args user net key) by done.
  by rewrite He.
Qed.

Section Answered.

Variable req : http_response.

Hypothesis call_answered : net url TIMEOUT = Ok req.

Lemma served_interpret :
  served
  = (recover (λ _, INTERNAL_ERROR) (interpret py args req),
     [Requested url TIMEOUT]).
Proof.
  rewrite (served_configured py environ args user net key) by done.
  by rewrite call_answered.
Qed.

(** X3. On a parsed upstream body the answer is NO_TRACKS_FOUND exactly
    when the body is an object and its ["recenttracks"] member (an empty
    object when missing) is an object without ["track"] or with a falsy one
    (empty list, null, empty string, 0, false, empty object), a list that
    does not hold the string ["track"], or a string that does not contain
    it. *)
Theorem no_tracks_found_iff (j : json) :
  json_result req = Ok j →
  (run net (route py environ args user)).1
  = Response (JDict [("message", JStr "NO_TRACKS_FOUND")]) 200
  ↔ ∃ top,
      j = JDict top
      ∧ track_list_missing (default (JDict []) (assoc_get top "recenttracks")).
Proof.
  intros Hj. rewrite served_interpret, <- select_track_none_iff. simpl.
  unfold interpret. rewrite Hj. simpl.
  destruct (select_track j) as [[track |] | e]; simpl.
  - split; [| discriminate].
    destruct (add_date_uts py track) as [track' | e]; [| discriminate].
    simpl. destruct (render py args (status_code req) track') as [resp | e]
      eqn:Hrender; [| discriminate].
    simpl. intros ->. by destruct (render_not_no_tracks _ _ _ _ _ Hrender).
  - done.
  - split; discriminate.
Qed.

(** X5. When the ["track"] member is truthy but not a list (a single track
    object, a string, a number), the handler answers INTERNAL_ERROR,
    whatever the format. *)
Theorem track_not_a_list_internal_error (top rt : list (string * json))
    (tracks : json) :
  json_result req = Ok (JDict top) →
  assoc_get top "recenttracks" = Some (JDict rt) →
  assoc_get rt "track" = Some tracks →
  py_truthy tracks = true →
  (∀ l, tracks ≠ JList l) →
  run net (route py environ args user)
  = (Response (JDict [("message", JStr "INTERNAL_ERROR")]) 500,
     [Requested (request_url user (Some key)) TIMEOUT]).
Proof.
  intros Hj Htop Hrt Htruthy Hlist.
  destruct (py_index_truthy_not_a_list py tracks Htruthy Hlist) as [e He].
  apply (served_raises e). rewrite call_answered. simpl.
  unfold interpret, select_track. rewrite Hj. simpl. rewrite Htop. simpl.
  rewrite Hrt. simpl. rewrite Htruthy. simpl.
  destruct (py_index tracks 0) as [track | e']; simpl in *.
  - by rewrite He.
  - by injection He as ->.
Qed.

Section FirstTrack.

Variables top rt t : list (string * json).
Variable rest : list json.

Hypothesis body_parsed : json_result req = Ok (JDict top).
Hypothesis recenttracks_given : assoc_get top "recenttracks" = Some (JDict rt).
Hypothesis tracks_given : assoc_get rt "track" = Some (JList (JDict t :: rest)).

Lemma served_first_track :
  served
  = (recover (λ _, INTERNAL_ERROR)
       (add_date_uts py (JDict t) ≫= render py args (status_code req)),
     [Requested url TIMEOUT]).
Proof.
  rewrite served_interpret.
  erewrite interpret_selected; [done | done |].
  by eapply select_track_first.
Qed.

(** X6. When the first track has a ["date"] that is not an object (null, a
    string, a number), or one whose [uts] is truthy and does not convert to
    an integer, the handler answers INTERNAL_ERROR, with or without the
    badge format. *)
Theorem bad_date_internal_error :
  bad_date py t →
  run net (route py environ args user)
  = (Response (JDict [("message", JStr "INTERNAL_ERROR")]) 500,
     [Requested (request_url user (Some key)) TIMEOUT]).
Proof.
  intros Hbad. destruct (bad_date_raises py t Hbad) as [e He].
  rewrite served_first_track. by rewrite He.
Qed.

(** X10. With [format=shields.io], a first track without a name, without
    an artist, or with an artist that is not an object or has no ["#text"]
    is answered with INTERNAL_ERROR. *)
Theorem badge_unavailable_internal_error :
  args_get args "format" = Some "shields.io" →
  badge_unavailable t →
  run net (route py environ args user)
  = (Response (JDict [("message", JStr "INTERNAL_ERROR")]) 500,
     [Requested (request_url user (Some key)) TIMEOUT]).
Proof.
  intros Hfmt Hbadge. rewrite served_first_track.
  destruct (add_date_uts py (JDict t)) as [track' | e] eqn:Hadd; [| done].
  destruct (add_date_uts_inv _ _ _ Hadd) as (t0 & v & [= <-] & ->).
  destruct (badge_unavailable_raises py args (status_code req) t v Hfmt Hbadge)
    as [e He].
  simpl. by rewrite He.
Qed.

(** X11. With [format=shields.io] and a date in order, the name and the
    artist text need not be strings: the message joins what [str()] makes of
    them (["None"] for null, the decimal digits for an integer), with status
    200; when [str()] raises on one of them the answer is INTERNAL_ERROR. *)
Theorem badge_shows_str (artist : list (string * json)) (name text v : json) :
  args_get args "format" = Some "shields.io" →
  assoc_get t "name" = Some name →
  assoc_get t "artist" = Some (JDict artist) →
  assoc_get artist "#text" = Some text →
  date_in_order py t v →
  (run net (route py environ args user)).1
  = match py_str py name, py_str py text with
    | Ok shown_name, Ok shown_text =>
        Response
          (JDict [ ("schemaVersion", JInt 1);
                   ("label", JStr "Last.FM Last Played Song");
                   ("message", JStr (shown_name ++ " - " ++ shown_text)) ])
          200
    | _, _ => Response (JDict [("message", JStr "INTERNAL_ERROR")]) 500
    end.
Proof.
  intros Hfmt Hname Hartist Htext Hdate.
  rewrite served_first_track, (date_in_order_adds py t v Hdate). simpl.
  erewrite render_shown;
    [| done | by rewrite assoc_get_set_ne | by rewrite assoc_get_set_ne | done].
  by destruct (py_str py name), (py_str py text).
Qed.

End FirstTrack.

End Answered.

End Upstream.

(** X4. Only the first element of the track list counts: two upstream
    responses with the same status and the same first track are answered
    alike, whatever follows in their lists and whatever else they hold. *)
Theorem rest_of_the_list_ignored (py : interpreter)
    (environ : gmap string string) (args : list (string * string))
    (user key : string) (net net' : network) (req req' : http_response)
    (top top' rt rt' : list (string * json)) (track : json)
    (rest rest' : list json) :
  environ !! "LASTFM_API_KEY" = Some key →
  key ≠ "" →
  net (request_url user (Some key)) TIMEOUT = Ok req →
  net' (request_url user (Some key)) TIMEOUT = Ok req' →
  status_code req = status_code req' →
  json_result req = Ok (JDict top) →
  json_result req' = Ok (JDict top') →
  assoc_get top "recenttracks" = Some (JDict rt) →
  assoc_get top' "recenttracks" = Some (JDict rt') →
  assoc_get rt "track" = Some (JList (track :: rest)) →
  assoc_get rt' "track" = Some (JList (track :: rest')) →
  run net (route py environ args user) = run net' (route py environ args user).
Proof.
  intros Hkey Hne Hnet Hnet' Hcode Hj Hj' Htop Htop' Hrt Hrt'.
  rewrite !(served_configured py environ args user _ key) by done.
  rewrite Hnet, Hnet'. simpl.
  erewrite (interpret_selected py args req);
    [| done | by eapply select_track_first].
  erewrite (interpret_selected py args req');
    [| done | by eapply select_track_first].
  by rewrite Hcode.
Qed.

Lemma add_date_uts_value (py : interpreter) (track track' : json) :
  add_date_uts py track = Ok track' →
  lookup_field track' "date_uts" = Some JNull
  ∨ ∃ n, lookup_field track' "date_uts" = Some (JInt n).
Proof.
  destruct track as [| | | | | |t]; try discriminate.
  unfold add_date_uts. simpl.
  destruct (default (JDict []) (assoc_get t "date")) as [| | | | | |d];
    try discriminate.
  simpl. destruct (py_truthy (default JNull (assoc_get d "uts"))).
  - destruct (py_int py _) as [n |]; try discriminate. simpl.
    intros [= <-]. right. exists n. apply assoc_get_set_eq.
  - simpl. intros [= <-]. left. apply assoc_get_set_eq.
Qed.

(** X7. Whatever the upstream sent, a track that the handler returns
    carries a [date_uts] that is null or an integer: never a string, a
    float or a missing member. *)
Theorem returned_date_uts_null_or_integer (py : interpreter)
    (environ : gmap string string) (args : list (string * string))
    (user : string) (net : network) (returned : json) :
  lookup_field (body (run net (route py environ args user)).1) "track"
  = Some returned →
  lookup_field returned "date_uts" = Some JNull
  ∨ ∃ n, lookup_field returned "date_uts" = Some (JInt n).
Proof.
  destruct (optional_truthy (environ !! "LASTFM_API_KEY")) eqn:Hkey;
    [| by rewrite served_unconfigured by done].
  rewrite served_with_key by done. simpl.
  destruct (net _ _) as [req | e]; simpl; [| discriminate].
  unfold interpret.
  destruct (json_result req) as [j | e]; [| discriminate]. simpl.
  destruct (select_track j) as [[track |] | e]; [| discriminate ..]; simpl.
  destruct (add_date_uts py track) as [track' | e] eqn:Hadd;
    [| discriminate].
  simpl. unfold render. case_bool_decide.
  - destruct (py_getitem track' "name" ≫= py_str py); [| discriminate].
    simpl.
    destruct (py_getitem track' "artist") as [artist |]; [| discriminate].
    simpl.
    destruct (py_getitem artist "#text" ≫= py_str py); discriminate.
  - simpl. intros [= <-]. by eapply add_date_uts_value.
Qed.

(** X8. A [date_uts] that the upstream track already carries is not passed
    on: the track is normalized as if the member had any other value, or
    were not there. *)
Theorem upstream_date_uts_discarded (py : interpreter)
    (t : list (string * json)) (x : json) :
  add_date_uts py (JDict (assoc_set t "date_uts" x))
  = add_date_uts py (JDict t).
Proof.
  unfold add_date_uts. simpl. rewrite assoc_get_set_ne by done.
  destruct (default (JDict []) (assoc_get t "date")) as [| | | | | |d];
    try done.
  simpl. destruct (py_truthy (default JNull (assoc_get d "uts"))); simpl.
  - destruct (py_int py _); simpl; [| done]. by rewrite assoc_set_set.
  - by rewrite assoc_set_set.
Qed.

(** ** Decimal timestamps *)

(** What [int()] needs to know about a digit. *)
Lemma digit_char (c : ascii) :
  is_Some (digit_value c) →
  is_underscore c = false
  ∧ is_space c = false
  ∧ (nat_of_ascii c <? 128)%nat = true
  ∧ ∀ s, strip_sign (String c s) = (false, String c s).
Proof.
  intros [d Hd]. revert Hd.
  destruct c as [[] [] [] [] [] [] [] []]; vm_compute; try discriminate;
    done.
Qed.

Lemma pretty_N_char_value (x : N) :
  (x < 10)%N → digit_value (pretty_N_char x) = Some (Z.of_N x).
Proof.
  intros Hx.
  assert (x = 0 ∨ x = 1 ∨ x = 2 ∨ x = 3 ∨ x = 4 ∨ x = 5 ∨ x = 6 ∨ x = 7
          ∨ x = 8 ∨ x = 9)%N as Hcases by lia.
  by repeat destruct Hcases as [-> | Hcases]; [.. | subst x].
Qed.

Lemma digits_value_acc (ds : list ascii) (a : Z) :
  fold_left (λ acc c, 10 * acc + default 0 (digit_value c)) ds a
  = a * 10 ^ Z.of_nat (length ds) + digits_value ds.
Proof.
  unfold digits_value. revert a. induction ds as [| c ds IH]; intros a.
  - simpl. lia.
  - cbn [fold_left length]. rewrite IH, (IH (10 * 0 + _)).
    rewrite Nat2Z.inj_succ, Z.pow_succ_r by lia. ring.
Qed.

(** The digits that [pretty] writes before [s], read back. *)
Lemma pretty_N_go_digits (x : N) (s : string) :
  Forall (λ c, is_Some (digit_value c)) (list_ascii_of_string s) →
  Forall (λ c, is_Some (digit_value c))
    (list_ascii_of_string (pretty_N_go x s))
  ∧ digits_value (list_ascii_of_string (pretty_N_go x s))
    = Z.of_N x * 10 ^ Z.of_nat (String.length s)
      + digits_value (list_ascii_of_string s).
Proof.
  revert s. induction (N.lt_wf_0 x) as [x _ IH]. intros s Hs.
  destruct (decide (x = 0)%N) as [-> | Hx].
  - rewrite pretty_N_go_0. split; [done | lia].
  - rewrite pretty_N_go_step by lia.
    assert (digit_value (pretty_N_char (x `mod` 10)) = Some (Z.of_N (x `mod` 10)))
      as Hchar by (apply pretty_N_char_value, N.mod_lt; lia).
    destruct (IH (x `div` 10)%N) with (s := String (pretty_N_char (x `mod` 10)) s)
      as [Hall Hvalue].
    { apply N.div_lt; lia. }
    { simpl. constructor; [by rewrite Hchar | done]. }
    split; [done |]. rewrite Hvalue. simpl String.length.
    cbn [list_ascii_of_string]. unfold digits_value at 1. cbn [fold_left].
    rewrite digits_value_acc, Hchar. simpl default.
    rewrite Nat2Z.inj_succ, Z.pow_succ_r by lia.
    replace (String.length s) with (length (list_ascii_of_string s)).
    2:{ clear. induction s; simpl; congruence. }
    pose proof (N.div_mod x 10 ltac:(done)) as Hdiv.
    assert (Z.of_N x = 10 * Z.of_N (x `div` 10) + Z.of_N (x `mod` 10)) as ->
      by lia.
    ring.
Qed.

Lemma pretty_N_go_length (k : nat) (x : N) (s : string) :
  (x < 10 ^ N.of_nat k)%N →
  (String.length (pretty_N_go x s) ≤ k + String.length s)%nat.
Proof.
  revert k s. induction (N.lt_wf_0 x) as [x _ IH]. intros k s Hx.
  destruct (decide (x = 0)%N) as [-> | Hx0].
  - rewrite pretty_N_go_0. lia.
  - rewrite pretty_N_go_step by lia.
    destruct k as [| k]; [simpl in Hx; lia |].
    etrans; [apply (IH (x `div` 10)%N) with (k := k) |].
    + apply N.div_lt; lia.
    + rewrite Nat2N.inj_succ, N.pow_succ_r' in Hx.
      apply N.Div0.div_lt_upper_bound. lia.
    + simpl. lia.
Qed.

Lemma scan_digits_all (s : string) :
  Forall (λ c, is_Some (digit_value c)) (list_ascii_of_string s) →
  scan_digits s = (list_ascii_of_string s, EmptyString).
Proof.
  induction s as [| c s IH]; simpl; [done |].
  intros [Hc Hs]%Forall_cons. rewrite (bool_decide_eq_true_2 _ Hc).
  rewrite orb_true_r. by rewrite IH.
Qed.

Lemma well_grouped_digits (ds : list ascii) (prev : bool) :
  Forall (λ c, is_Some (digit_value c)) ds →
  ds ≠ [] →
  well_grouped prev ds = true.
Proof.
  revert prev. induction ds as [| c ds IH]; intros prev Hds Hne; [done |].
  apply Forall_cons in Hds as [Hc Hds]. simpl.
  destruct (digit_char c Hc) as (-> & _).
  destruct ds as [| c' ds]; [done |]. by apply IH.
Qed.

Lemma filter_digits (ds : list ascii) :
  Forall (λ c, is_Some (digit_value c)) ds →
  filter (λ c, is_underscore c = false) ds = ds.
Proof.
  induction ds as [| c ds IH]; [done |].
  intros [Hc Hds]%Forall_cons. destruct (digit_char c Hc) as (Hu & _).
  rewrite filter_cons_True by done. by rewrite IH.
Qed.

Lemma is_ascii_text_digits (s : string) :
  Forall (λ c, is_Some (digit_value c)) (list_ascii_of_string s) →
  is_ascii_text s = true.
Proof.
  unfold is_ascii_text. induction (list_ascii_of_string s) as [| c ds IH];
    [done |].
  intros [Hc Hds]%Forall_cons. destruct (digit_char c Hc) as (_ & _ & Hlt & _).
  simpl. by rewrite Hlt, IH.
Qed.

(** [int()] of a string of digits within the limit is the number they
    write. *)
Lemma int_of_str_digits (py : interpreter) (s : string) :
  Forall (λ c, is_Some (digit_value c)) (list_ascii_of_string s) →
  s ≠ "" →
  within_digit_limit py (String.length s) = true →
  int_of_str py s = Ok (digits_value (list_ascii_of_string s)).
Proof.
  intros Hs Hne Hlimit. unfold int_of_str.
  rewrite is_ascii_text_digits by done. unfold int_of_ascii.
  destruct s as [| c s]; [done |].
  pose proof Hs as [Hc _]%Forall_cons.
  destruct (digit_char c Hc) as (_ & Hspace & _ & Hsign).
  cbn [lstrip]. rewrite Hspace, Hsign, scan_digits_all by done.
  rewrite filter_digits by done.
  rewrite well_grouped_digits by done.
  replace (length (list_ascii_of_string (String c s)))
    with (String.length (String c s)).
  2:{ generalize (String c s). clear. intros s.
      induction s; simpl; congruence. }
  by rewrite Hlimit.
Qed.

Lemma pretty_N_go_nonempty (x : N) (s : string) :
  s ≠ "" → pretty_N_go x s ≠ "".
Proof.
  revert s. induction (N.lt_wf_0 x) as [x _ IH]. intros s Hs.
  destruct (decide (x = 0)%N) as [-> | Hx].
  - by rewrite pretty_N_go_0.
  - rewrite pretty_N_go_step by lia. apply IH; [apply N.div_lt; lia | done].
Qed.

(** Up to 640 digits no interpreter refuses the conversion. *)
Lemma int_of_str_pretty (py : interpreter) (n : N) :
  (n < 10 ^ 640)%N →
  int_of_str py (pretty n) = Ok (Z.of_N n)
  ∧ pretty n ≠ "".
Proof.
  intros Hn. unfold pretty, pretty_N. case_decide as Hn0.
  - subst n. split; [| done]. apply (int_of_str_digits py "0"); try done.
    repeat constructor. by eexists.
  - destruct (pretty_N_go_digits n "") as [Hall Hvalue]; [constructor |].
    assert (pretty_N_go n "" ≠ "") as Hne.
    { rewrite pretty_N_go_step by lia. by apply pretty_N_go_nonempty. }
    split; [| done].
    rewrite int_of_str_digits; [| done | done |].
    + rewrite Hvalue. f_equal. cbn [String.length list_ascii_of_string].
      unfold digits_value. cbn [fold_left Z.of_nat].
      rewrite Z.pow_0_r. lia.
    + unfold within_digit_limit. apply orb_true_iff; left.
      apply orb_true_iff; left. apply Nat.leb_le.
      pose proof (pretty_N_go_length 640 n "" Hn) as Hlen.
      cbn [String.length] in Hlen. unfold INT_MAX_STR_DIGITS_THRESHOLD. lia.
Qed.

(** X9. A timestamp written in decimal digits is converted to the number
    it writes: for every [n] below [10 ^ 640] (every interpreter converts
    that many digits), [date.uts = str(n)] gives [date_uts = n]; the
    timestamp ["0"] gives 0, not null. *)
Theorem decimal_timestamp_converted (py : interpreter)
    (t d : list (string * json)) (n : N) :
  assoc_get t "date" = Some (JDict d) →
  assoc_get d "uts" = Some (JStr (pretty n)) →
  (n < 10 ^ 640)%N →
  add_date_uts py (JDict t)
  = Ok (JDict (assoc_set t "date_uts" (JInt (Z.of_N n)))).
Proof.
  intros Hdate Huts Hn. destruct (int_of_str_pretty py n Hn) as [Hint Hne].
  erewrite add_date_uts_truthy; [| done | done |].
  - simpl. by rewrite Hint.
  - simpl. apply negb_true_iff, String.eqb_neq, Hne.
Qed.

(** ** The further theorems at sample inputs *)

Lemma one_request_witness :
  (run (failing ConnectionError)
       (route sample_python sample_environ [] "rj&limit=50")).2
  = [ Requested
        ("https://ws.audioscrobbler.com/2.0/"
         ++ "?method=user.getrecenttracks&limit=1&format=json"
         ++ "&user=rj&limit=50&api_key=0123456789abcdef")
        10 ].
Proof.
  apply (one_request_whatever_the_outcome sample_python sample_environ []
           "rj&limit=50" (failing ConnectionError) "0123456789abcdef").
  - reflexivity.
  - discriminate.
Defined.

Lemma no_tracks_found_witness :
  (run (answering 200 (JDict [("recenttracks", JList [JStr "tracks"])]))
       (route sample_python sample_environ [] "rj")).1
  = Response (JDict [("message", JStr "NO_TRACKS_FOUND")]) 200.
Proof.
  apply (no_tracks_found_iff sample_python sample_environ [] "rj"
           (answering 200 (JDict [("recenttracks", JList [JStr "tracks"])]))
           "0123456789abcdef" eq_refl ltac:(discriminate)
           (HttpResponse 200
              (Ok (JDict [("recenttracks", JList [JStr "tracks"])])))
           eq_refl
           (JDict [("recenttracks", JList [JStr "tracks"])]) eq_refl).
  exists [("recenttracks", JList [JStr "tracks"])]. split; [reflexivity |].
  apply track_not_an_element. reflexivity.
Defined.

Lemma rest_of_the_list_witness :
  run (answering 200
         (recent (JList [JDict playing_fields; JDict dated_song_fields])))
      (route sample_python sample_environ [] "rj")
  = run (answering 200
           (JDict [ ("recenttracks",
                     JDict [ ("@attr", JDict [("total", JStr "2")]);
                             ("track", JList [JDict playing_fields]) ]) ]))
        (route sample_python sample_environ [] "rj").
Proof.
  apply (rest_of_the_list_ignored sample_python sample_environ [] "rj"
           "0123456789abcdef" _ _
           (HttpResponse 200
              (Ok (recent (JList [JDict playing_fields;
                                  JDict dated_song_fields]))))
           (HttpResponse 200
              (Ok (JDict [ ("recenttracks",
                            JDict [ ("@attr", JDict [("total", JStr "2")]);
                                    ("track", JList [JDict playing_fields]) ]) ])))
           [("recenttracks",
             JDict [("track", JList [JDict playing_fields;
                                     JDict dated_song_fields])])]
           [("recenttracks",
             JDict [ ("@attr", JDict [("total", JStr "2")]);
                     ("track", JList [JDict playing_fields]) ])]
           [("track", JList [JDict playing_fields; JDict dated_song_fields])]
           [ ("@attr", JDict [("total", JStr "2")]);
             ("track", JList [JDict playing_fields]) ]
           (JDict playing_fields) [JDict dated_song_fields] []);
    [reflexivity | discriminate | reflexivity ..].
Defined.

Lemma track_not_a_list_witness :
  run (answering 200 (recent (JDict song_fields)))
      (route sample_python sample_environ [] "rj")
  = (Response (JDict [("message", JStr "INTERNAL_ERROR")]) 500,
     [Requested (sample_url "rj") 10]).
Proof.
  apply (track_not_a_list_internal_error sample_python sample_environ [] "rj"
           (answering 200 (recent (JDict song_fields))) "0123456789abcdef"
           eq_refl ltac:(discriminate)
           (HttpResponse 200 (Ok (recent (JDict song_fields)))) eq_refl
           [("recenttracks", JDict [("track", JDict song_fields)])]
           [("track", JDict song_fields)] (JDict song_fields));
    [reflexivity .. | discriminate].
Defined.

Lemma bad_date_witness :
  run (answering 200
         (recent (JList [JDict (song_fields ++ [("date", JNull)])])))
      (route sample_python sample_environ [] "rj")
  = (Response (JDict [("message", JStr "INTERNAL_ERROR")]) 500,
     [Requested (sample_url "rj") 10]).
Proof.
  apply (bad_date_internal_error sample_python sample_environ [] "rj"
           (answering 200
              (recent (JList [JDict (song_fields ++ [("date", JNull)])])))
           "0123456789abcdef" eq_refl ltac:(discriminate)
           (HttpResponse 200
              (Ok (recent (JList [JDict (song_fields ++ [("date", JNull)])]))))
           eq_refl
           [("recenttracks",
             JDict [("track",
                     JList [JDict (song_fields ++ [("date", JNull)])])])]
           [("track", JList [JDict (song_fields ++ [("date", JNull)])])]
           (song_fields ++ [("date", JNull)]) [] eq_refl eq_refl eq_refl).
  apply (date_not_an_object _ _ JNull); [reflexivity | discriminate].
Defined.

Lemma returned_date_uts_witness :
  lookup_field (JDict (dated_song_fields ++ [("date_uts", JInt 1700000000)]))
    "date_uts"
  = Some JNull
  ∨ ∃ n,
      lookup_field
        (JDict (dated_song_fields ++ [("date_uts", JInt 1700000000)]))
        "date_uts"
      = Some (JInt n).
Proof.
  apply (returned_date_uts_null_or_integer sample_python sample_environ []
           "rj" (answering 200 (recent (JList [JDict dated_song_fields])))).
  reflexivity.
Defined.

Lemma decimal_timestamp_witness :
  add_date_uts sample_python
    (JDict [("date", JDict [("uts", JStr "1234567890")])])
  = Ok (JDict [ ("date", JDict [("uts", JStr "1234567890")]);
                ("date_uts", JInt 1234567890) ]).
Proof.
  apply (decimal_timestamp_converted sample_python
           [("date", JDict [("uts", JStr "1234567890")])]
           [("uts", JStr "1234567890")] 1234567890%N);
    reflexivity.
Defined.

Lemma badge_unavailable_witness :
  run (answering 200 (recent (JList [JDict extended_fields])))
      (route sample_python sample_environ [("format", "shields.io")] "rj")
  = (Response (JDict [("message", JStr "INTERNAL_ERROR")]) 500,
     [Requested (sample_url "rj") 10]).
Proof.
  apply (badge_unavailable_internal_error sample_python sample_environ
           [("format", "shields.io")] "rj"
           (answering 200 (recent (JList [JDict extended_fields])))
           "0123456789abcdef" eq_refl ltac:(discriminate)
           (HttpResponse 200 (Ok (recent (JList [JDict extended_fields]))))
           eq_refl
           [("recenttracks", JDict [("track", JList [JDict extended_fields])])]
           [("track", JList [JDict extended_fields])]
           extended_fields [] eq_refl eq_refl eq_refl eq_refl).
  apply (artist_text_missing _ [("name", JStr "Band")]); reflexivity.
Defined.

Lemma badge_shows_str_witness :
  (run (answering 200
          (recent (JList [JDict [ ("name", JNull);
                                  ("artist", JDict [("#text", JInt 7)]) ]])))
       (route sample_python sample_environ [("format", "shields.io")] "rj")).1
  = Response
      (JDict [ ("schemaVersion", JInt 1);
               ("label", JStr "Last.FM Last Played Song");
               ("message", JStr "None - 7") ])
      200.
Proof.
  apply (badge_shows_str sample_python sample_environ
           [("format", "shields.io")] "rj"
           (answering 200
              (recent (JList [JDict [ ("name", JNull);
                                      ("artist", JDict [("#text", JInt 7)]) ]])))
           "0123456789abcdef" eq_refl ltac:(discriminate)
           (HttpResponse 200
              (Ok (recent
                     (JList [JDict [ ("name", JNull);
                                     ("artist", JDict [("#text", JInt 7)]) ]]))))
           eq_refl
           [("recenttracks",
             JDict [("track",
                     JList [JDict [ ("name", JNull);
                                    ("artist", JDict [("#text", JInt 7)]) ]])])]
           [("track",
             JList [JDict [ ("name", JNull);
                            ("artist", JDict [("#text", JInt 7)]) ]])]
           [("name", JNull); ("artist", JDict [("#text", JInt 7)])] []
           eq_refl eq_refl eq_refl
           [("#text", JInt 7)] JNull (JInt 7) JNull);
    [reflexivity .. | apply date_absent; reflexivity].
Defined.

(** ** When a track costs the answer *)

(** X12. Without the badge format, a first track that is an object is
    answered with INTERNAL_ERROR exactly when its date is at fault: a
    ["date"] that is not an object, or a truthy [uts] that does not convert.
    Nothing else in the track can cost the answer. *)
Theorem track_internal_error_iff (py : interpreter)
    (environ : gmap string string) (args : list (string * string))
    (user key : string) (net : network) (req : http_response)
    (top rt t : list (string * json)) (rest : list json) :
  environ !! "LASTFM_API_KEY" = Some key →
  key ≠ "" →
  net (request_url user (Some key)) TIMEOUT = Ok req →
  json_result req = Ok (JDict top) →
  assoc_get top "recenttracks" = Some (JDict rt) →
  assoc_get rt "track" = Some (JList (JDict t :: rest)) →
  args_get args "format" ≠ Some "shields.io" →
  (run net (route py environ args user)).1
  = Response (JDict [("message", JStr "INTERNAL_ERROR")]) 500
  ↔ bad_date py t.
Proof.
  intros Hkey Hne Hnet Hj Htop Hrt Hfmt.
  rewrite (served_configured py environ args user net key) by done.
  rewrite Hnet. simpl.
  erewrite interpret_selected; [| done | by eapply select_track_first].
  split.
  - destruct (add_date_uts py (JDict t)) as [track' | e] eqn:Hadd; simpl.
    + rewrite render_track by done. discriminate.
    + intros _. by eapply add_date_uts_raises_bad_date.
  - intros Hbad. destruct (bad_date_raises py t Hbad) as [e ->]. done.
Qed.

Lemma track_internal_error_witness :
  (run (answering 200
          (recent (JList [JDict [("date", JDict [("uts", JStr "soon")])]])))
       (route sample_python sample_environ [] "rj")).1
  = Response (JDict [("message", JStr "INTERNAL_ERROR")]) 500.
Proof.
  apply (track_internal_error_iff sample_python sample_environ [] "rj"
           "0123456789abcdef"
           (answering 200
              (recent (JList [JDict [("date", JDict [("uts", JStr "soon")])]])))
           (HttpResponse 200
              (Ok (recent
                     (JList [JDict [("date", JDict [("uts", JStr "soon")])]]))))
           [("recenttracks",
             JDict [("track",
                     JList [JDict [("date", JDict [("uts", JStr "soon")])]])])]
           [("track", JList [JDict [("date", JDict [("uts", JStr "soon")])]])]
           [("date", JDict [("uts", JStr "soon")])] []);
    [reflexivity | discriminate | reflexivity .. | discriminate |].
  apply (uts_not_convertible _ _ [("uts", JStr "soon")] (JStr "soon")
           ValueError);
    reflexivity.
Defined.
